(** * Simple City Weather Website: the request handler of [main.py]

    The repository is one Flask route, [weather], which validates a form
    field, issues one HTTP GET to the weather provider, reshapes the JSON
    answer into display strings and hands the resulting dictionary to the
    template renderer.

    The embedding follows the handler line by line.  Python values that
    the handler touches are modelled as follows.

    - A Python [str] is a Rocq [string], one [ascii] per character, so the
      embedding covers text whose code points are below 256.  Whitespace
      ([str.isspace]) and case conversion are Python's on that range;
      the two characters whose title case lies beyond it are named by
      [PyStr.title_in_range].
    - A parsed JSON document is the inductive [json]; a Python [dict] is
      an association list searched from the front.
    - A Python [float] is a [spec_float] of the binary64 format, a Python
      [int] is a [Z].
    - Exceptions are the values of [exn]; a computation that may raise is
      a [result].  [try ... except requests.exceptions.RequestException]
      is [try_except_RequestException].
    - The collaborators that live outside the repository (the HTTP
      client, the clock and the date formatting of [datetime], [repr] of
      floats and containers) are the fields of the record [world].
    - The handler is a program, [weather_prog], whose only effect is the
      call [Get] to the provider; [run] executes it in a world, hands
      each call to the HTTP client and logs its URL. *)

From Stdlib Require Import ZArith List Bool Lia.
From Stdlib Require Import Strings.String Strings.Ascii.
From Stdlib Require Import Numbers.DecimalString Numbers.DecimalZ
  Numbers.DecimalPos.
From Stdlib Require Import Floats.SpecFloat.
Import ListNotations.

Open Scope string_scope.
Open Scope Z_scope.

(** ** Exceptions and fallible computations *)

Inductive exn :=
| RequestException (text : string)
| BadRequestKeyError (key : string)
| KeyError (key : string)
| IndexError
| TypeError
| ValueError
| AttributeError
| OverflowError
| UnknownTimeZoneError.

Inductive result (A : Type) :=
| Ok (a : A)
| Raise (e : exn).

Arguments Ok {A} a.
Arguments Raise {A} e.

Definition bind {A B : Type} (m : result A) (k : A -> result B) : result B :=
  match m with
  | Ok a => k a
  | Raise e => Raise e
  end.

Notation "x <- m ;; k" := (bind m (fun x => k))
  (at level 61, m at next level, right associativity).

(** [try: body except RequestException as e: handler e]: only the
    exceptions of the [requests] hierarchy are intercepted, every other
    one keeps propagating. *)
Definition try_except_RequestException {A : Type}
    (body : result A) (handler : string -> A) : result A :=
  match body with
  | Ok a => Ok a
  | Raise (RequestException text) => Ok (handler text)
  | Raise e => Raise e
  end.

Definition is_RequestException (e : exn) : bool :=
  match e with
  | RequestException _ => true
  | _ => false
  end.

(** ** Python strings *)

Module PyStr.

(** [str.isspace] on one character, for code points below 256. *)
Definition isspace (c : ascii) : bool :=
  let n := N_of_ascii c in
  ((9 <=? n) && (n <=? 13) || (28 <=? n) && (n <=? 32)
   || (n =? 133) || (n =? 160))%N.

Fixpoint lstrip (s : string) : string :=
  match s with
  | EmptyString => EmptyString
  | String c r => if isspace c then lstrip r else s
  end.

Fixpoint rstrip (s : string) : string :=
  match s with
  | EmptyString => EmptyString
  | String c r =>
      match rstrip r with
      | EmptyString => if isspace c then EmptyString else String c EmptyString
      | r' => String c r'
      end
  end.

(** [s.strip()] *)
Definition strip (s : string) : string := rstrip (lstrip s).

(** The truth value of a string: [not city] holds for the empty one. *)
Definition truthy (s : string) : bool :=
  match s with
  | EmptyString => false
  | String _ _ => true
  end.

(** [c.isupper()]: the upper-case letters below 256, which are the
    ASCII ones and the accented ones from 192 to 222 less the
    multiplication sign. *)
Definition isupper (c : ascii) : bool :=
  let n := N_of_ascii c in
  ((65 <=? n) && (n <=? 90) || (192 <=? n) && (n <=? 214)
   || (216 <=? n) && (n <=? 222))%N.

(** The lower-case letters whose upper case is one character below 256:
    the ASCII ones and the accented ones from 224 to 254 less the
    division sign. *)
Definition has_upper (c : ascii) : bool :=
  let n := N_of_ascii c in
  ((97 <=? n) && (n <=? 122) || (224 <=? n) && (n <=? 246)
   || (248 <=? n) && (n <=? 254))%N.

(** The upper case of a letter of [has_upper]; the other characters are
    carried unchanged. *)
Definition upper_char (c : ascii) : ascii :=
  if has_upper c then ascii_of_N (N_of_ascii c - 32) else c.

(** [c.lower()] *)
Definition lower_char (c : ascii) : ascii :=
  if isupper c then ascii_of_N (N_of_ascii c + 32) else c.

(** [s.lower()] *)
Fixpoint lower (s : string) : string :=
  match s with
  | EmptyString => EmptyString
  | String c r => String (lower_char c) (lower r)
  end.

(** The title case of one character, as [str.capitalize] applies it to
    the first one: the upper case of a letter, and [Ss] for the sharp
    s. *)
Definition title_char (c : ascii) : string :=
  if (N_of_ascii c =? 223)%N then "Ss"
  else String (upper_char c) EmptyString.

(** The title case of the micro sign (181) and of the y with diaeresis
    (255) lies beyond 255; every other character has its title case
    in [title_char]. *)
Definition title_in_range (c : ascii) : bool :=
  negb ((N_of_ascii c =? 181) || (N_of_ascii c =? 255))%N.

(** [s.capitalize()]: the first character in title case, all the
    following ones in lower case. *)
Definition capitalize (s : string) : string :=
  match s with
  | EmptyString => EmptyString
  | String c r => title_char c ++ lower r
  end.

(** The strings whose capitalized form stays below 256. *)
Definition capitalizable (s : string) : bool :=
  match s with
  | EmptyString => true
  | String c _ => title_in_range c
  end.

(** [str(z)] for an [int]. *)
Definition str_int (z : Z) : string := NilZero.string_of_int (Z.to_int z).

(** The degree sign U+00B0, a single character. *)
Definition degree : string := String (ascii_of_N 176) EmptyString.

End PyStr.

(** ** Parsed JSON and the Python operations applied to it *)

#[local] Set Warnings "-register-all".

(** A value produced by [response.json()].  The fields of an object are
    the items of the parsed dictionary. *)
Inductive json :=
| JNull
| JBool (b : bool)
| JInt (z : Z)
| JFloat (f : spec_float)
| JStr (s : string)
| JArr (items : list json)
| JObj (fields : list (string * json)).

Module PyDict.

Fixpoint lookup {V : Type} (k : string) (d : list (string * V)) : option V :=
  match d with
  | [] => None
  | (k', v) :: rest => if String.eqb k k' then Some v else lookup k rest
  end.

Definition keys {V : Type} (d : list (string * V)) : list string :=
  map fst d.

End PyDict.

Module PyObj.

(** [obj[key]] with a string key. *)
Definition getitem (obj : json) (key : string) : result json :=
  match obj with
  | JObj fields =>
      match PyDict.lookup key fields with
      | Some v => Ok v
      | None => Raise (KeyError key)
      end
  | _ => Raise TypeError
  end.

(** [obj[0]].  The keys of a parsed JSON object are strings, so the
    integer key is never present in a dictionary. *)
Definition getitem0 (obj : json) : result json :=
  match obj with
  | JArr (x :: _) => Ok x
  | JArr [] => Raise IndexError
  | JStr (String c _) => Ok (JStr (String c EmptyString))
  | JStr EmptyString => Raise IndexError
  | JObj _ => Raise (KeyError "0")
  | _ => Raise TypeError
  end.

(** [obj.get(key, default)]: only dictionaries have the method. *)
Definition get (obj : json) (key : string) (default : json) : result json :=
  match obj with
  | JObj fields =>
      match PyDict.lookup key fields with
      | Some v => Ok v
      | None => Ok default
      end
  | _ => Raise AttributeError
  end.

(** [obj.capitalize()]: only strings have the method. *)
Definition capitalize (obj : json) : result string :=
  match obj with
  | JStr s => Ok (PyStr.capitalize s)
  | _ => Raise AttributeError
  end.

End PyObj.

(** ** Numbers and their formatting *)

Module PyNum.

(** The binary64 format of a Python [float]. *)
Definition prec : Z := 53.
Definition emax : Z := 1024.

Inductive number :=
| NInt (z : Z)
| NFloat (f : spec_float).

(** [float(z)] before range checking: the nearest binary64 value, ties
    to even, an infinity when [z] is out of range. *)
Definition float_of_int (z : Z) : spec_float :=
  binary_normalize prec emax z 0 false.

(** The values that behave as numbers; [bool] is a subclass of [int]. *)
Definition as_number (j : json) : option number :=
  match j with
  | JBool b => Some (NInt (if b then 1 else 0))
  | JInt z => Some (NInt z)
  | JFloat f => Some (NFloat f)
  | _ => None
  end.

(** [x == 200] *)
Definition eq_200 (x : json) : bool :=
  match as_number x with
  | Some (NInt z) => z =? 200
  | Some (NFloat f) => SFeqb f (float_of_int 200)
  | None => false
  end.

(** The integer nearest to [num / den] for [0 < den], ties to even. *)
Definition round_half_even (num den : Z) : Z :=
  let q := num / den in
  match 2 * (num mod den) ?= den with
  | Lt => q
  | Gt => q + 1
  | Eq => if Z.even q then q else q + 1
  end.

(** The number of hundredths nearest to [m * 2 ^ e]. *)
Definition hundredths (m : positive) (e : Z) : Z :=
  if 0 <=? e then 100 * Zpos m * 2 ^ e
  else round_half_even (100 * Zpos m) (2 ^ (- e)).

Definition digit (d : Z) : string :=
  String (ascii_of_N (48 + Z.to_N d)) EmptyString.

(** A number of hundredths written with two decimals. *)
Definition fixed2 (n : Z) : string :=
  PyStr.str_int (n / 100) ++ "." ++ digit (n / 10 mod 10) ++ digit (n mod 10).

Definition sign (s : bool) : string := if s then "-" else "".

(** [format(f, '.2f')] for a [float]: the sign, then the magnitude
    correctly rounded to two decimals. *)
Definition format_float_2f (f : spec_float) : string :=
  match f with
  | S754_zero s => sign s ++ "0.00"
  | S754_infinity s => sign s ++ "inf"
  | S754_nan => "nan"
  | S754_finite s m e => sign s ++ fixed2 (hundredths m e)
  end.

(** [f"{x:.2f}"].  An [int] is converted to [float] first, which
    overflows beyond the binary64 range; a [str] does not know the
    format code, [None] and the containers do not take a format. *)
Definition format_2f (x : json) : result string :=
  match x with
  | JStr _ => Raise ValueError
  | _ =>
      match as_number x with
      | Some (NFloat f) => Ok (format_float_2f f)
      | Some (NInt z) =>
          match float_of_int z with
          | S754_infinity _ => Raise OverflowError
          | f => Ok (format_float_2f f)
          end
      | None => Raise TypeError
      end
  end.

(** [f"{x}"], with [repr] standing for the textual form of floats and
    containers. *)
Definition format_str (repr : json -> string) (x : json) : string :=
  match x with
  | JStr s => s
  | JInt z => PyStr.str_int z
  | JBool true => "True"
  | JBool false => "False"
  | JNull => "None"
  | _ => repr x
  end.

End PyNum.

(** ** The fixed-offset zones of [pytz] *)

Module Pytz.

Record tzinfo := { zone : string; utcoffset_hours : Z }.

(** The [Etc/GMT...] entries of the zone database.  The sign in a name
    is the opposite of the sign of the offset from UTC. *)
Definition etc_zones : list (string * Z) :=
  [ ("Etc/GMT", 0); ("Etc/GMT0", 0); ("Etc/GMT+0", 0); ("Etc/GMT-0", 0);
    ("Etc/GMT+1", -1); ("Etc/GMT+2", -2); ("Etc/GMT+3", -3);
    ("Etc/GMT+4", -4); ("Etc/GMT+5", -5); ("Etc/GMT+6", -6);
    ("Etc/GMT+7", -7); ("Etc/GMT+8", -8); ("Etc/GMT+9", -9);
    ("Etc/GMT+10", -10); ("Etc/GMT+11", -11); ("Etc/GMT+12", -12);
    ("Etc/GMT-1", 1); ("Etc/GMT-2", 2); ("Etc/GMT-3", 3);
    ("Etc/GMT-4", 4); ("Etc/GMT-5", 5); ("Etc/GMT-6", 6);
    ("Etc/GMT-7", 7); ("Etc/GMT-8", 8); ("Etc/GMT-9", 9);
    ("Etc/GMT-10", 10); ("Etc/GMT-11", 11); ("Etc/GMT-12", 12);
    ("Etc/GMT-13", 13); ("Etc/GMT-14", 14) ].

(** [pytz.timezone(name)] for a name that starts with [Etc/GMT]. *)
Definition timezone (name : string) : result tzinfo :=
  match PyDict.lookup name etc_zones with
  | Some h => Ok {| zone := name; utcoffset_hours := h |}
  | None => Raise UnknownTimeZoneError
  end.

End Pytz.

(** ** The collaborators of the handler *)

(** What lies outside the repository.
    - [API_Key]: the module-level constant read from the environment.
    - [requests_get url]: [requests.get(url)], [raise_for_status()] and
      [.json()] in sequence, lines 34 to 36; the result is the parsed
      body or the exception raised on the way (a connection failure and
      a non-success HTTP status raise within the [requests] hierarchy).
    - [now_strftime tz fmt]: [datetime.now(tz).strftime(fmt)].
    - [fromtimestamp_strftime ts tz fmt]:
      [datetime.fromtimestamp(ts, tz).strftime(fmt)], which raises for a
      timestamp out of range.
    - [repr]: the text of a float or of a container inside an f-string. *)
Record world := {
  API_Key : string;
  requests_get : string -> result json;
  now_strftime : Pytz.tzinfo -> string -> string;
  fromtimestamp_strftime :
    PyNum.number -> Pytz.tzinfo -> string -> result string;
  repr : json -> string
}.

(** The incoming request: its method and its form fields. *)
Record request := {
  method : string;
  form : list (string * string)
}.

(** [request.form[key]]: a missing field aborts the request. *)
Definition form_getitem (f : list (string * string)) (key : string)
  : result string :=
  match PyDict.lookup key f with
  | Some v => Ok v
  | None => Raise (BadRequestKeyError key)
  end.

(** The dictionary handed to the template. *)
Definition info := list (string * string).

(** What one run of the handler does: the URLs it requested, in order,
    and either the [weather_info] given to [render_template] ([None]
    when nothing was submitted) or the exception that left the handler. *)
Record handled := {
  requested : list string;
  rendered : result (option info)
}.

(** ** Programs that call the provider *)

(** A step of the handler either ends with an outcome or calls the
    provider with a URL and goes on with what the call gave: the parsed
    body or the exception it raised. *)
Inductive prog (A : Type) :=
| Done (r : result A)
| Get (url : string) (k : result json -> prog A).

Arguments Done {A} r.
Arguments Get {A} url k.

(** A program followed by a step on its outcome. *)
Fixpoint prog_map {A B : Type} (f : result A -> result B) (p : prog A)
  : prog B :=
  match p with
  | Done r => Done (f r)
  | Get url k => Get url (fun response => prog_map f (k response))
  end.

(** Running a program in a world: every call goes to [requests_get] and
    its URL is written to the log, in order. *)
Fixpoint run {A : Type} (w : world) (p : prog A) : list string * result A :=
  match p with
  | Done r => ([], r)
  | Get url k =>
      let (log, r) := run w (k (requests_get w url)) in (url :: log, r)
  end.

(** ** The handler *)

(** Line 56: the hour in the zone name, [-timezone_offset // 3600]. *)
Definition hour_offset (timezone_offset : Z) : Z :=
  (- timezone_offset) / 3600.

(** Line 56: the name given to [pytz.timezone]. *)
Definition zone_name (timezone_offset : Z) : string :=
  "Etc/GMT" ++ (if timezone_offset <? 0 then "+" else "")
            ++ PyStr.str_int (hour_offset timezone_offset).

(** Line 56 on a JSON value.  A [float] offset compares and divides, but
    the text of a float never names a zone; the other values do not
    compare with [0]. *)
Definition local_timezone (timezone_offset : json) : result Pytz.tzinfo :=
  match PyNum.as_number timezone_offset with
  | Some (PyNum.NInt z) => Pytz.timezone (zone_name z)
  | Some (PyNum.NFloat _) => Raise UnknownTimeZoneError
  | None => Raise TypeError
  end.

(** Lines 64-65: a timestamp must be a number. *)
Definition local_clock (w : world) (ts : json) (tz : Pytz.tzinfo)
  : result string :=
  match PyNum.as_number ts with
  | Some n => fromtimestamp_strftime w n tz "%H:%M:%S"
  | None => Raise TypeError
  end.

(** Lines 40-80: the branch taken when [cod] is 200. *)
Definition weather_found (w : world) (weather_data : json) : result info :=
  city_name <- PyObj.getitem weather_data "name" ;;
  sys <- PyObj.getitem weather_data "sys" ;;
  country <- PyObj.getitem sys "country" ;;
  main <- PyObj.getitem weather_data "main" ;;
  temperature <- PyObj.getitem main "temp" ;;
  main <- PyObj.getitem weather_data "main" ;;
  feels_like <- PyObj.getitem main "feels_like" ;;
  main <- PyObj.getitem weather_data "main" ;;
  humidity <- PyObj.getitem main "humidity" ;;
  weather <- PyObj.getitem weather_data "weather" ;;
  weather0 <- PyObj.getitem0 weather ;;
  weather_desc <- PyObj.getitem weather0 "description" ;;
  wind <- PyObj.getitem weather_data "wind" ;;
  wind_speed <- PyObj.get wind "speed" (JStr "N/A") ;;
  wind <- PyObj.getitem weather_data "wind" ;;
  wind_deg <- PyObj.get wind "deg" (JStr "N/A") ;;
  timezone_offset <- PyObj.getitem weather_data "timezone" ;;
  local_tz <- local_timezone timezone_offset ;;
  let day := now_strftime w local_tz "%A" in
  let date := now_strftime w local_tz "%d %B %Y" in
  sys <- PyObj.getitem weather_data "sys" ;;
  sunrise <- PyObj.getitem sys "sunrise" ;;
  sunrise_time <- local_clock w sunrise local_tz ;;
  sys <- PyObj.getitem weather_data "sys" ;;
  sunset <- PyObj.getitem sys "sunset" ;;
  sunset_time <- local_clock w sunset local_tz ;;
  temperature_text <- PyNum.format_2f temperature ;;
  feels_like_text <- PyNum.format_2f feels_like ;;
  description <- PyObj.capitalize weather_desc ;;
  Ok [ ("city", PyNum.format_str (repr w) city_name ++ ", "
                ++ PyNum.format_str (repr w) country);
       ("day", day);
       ("date", date);
       ("temperature", temperature_text ++ PyStr.degree ++ "C");
       ("feels_like", feels_like_text ++ PyStr.degree ++ "C");
       ("humidity", PyNum.format_str (repr w) humidity ++ "%");
       ("description", description);
       ("wind_speed", PyNum.format_str (repr w) wind_speed ++ " m/s");
       ("wind_deg", PyNum.format_str (repr w) wind_deg ++ PyStr.degree);
       ("sunrise", sunrise_time);
       ("sunset", sunset_time) ].

(** Line 30: the URL of the provider. *)
Definition base_url (w : world) (city : string) : string :=
  "http://api.openweathermap.org/data/2.5/weather?appid=" ++ API_Key w
    ++ "&q=" ++ city ++ "&units=metric".

(** Lines 34-83: the body of the [try].  Line 34 is the call; lines 35
    and 36 are part of what the call gives. *)
Definition fetch_prog (w : world) (url : string) : prog info :=
  Get url (fun response =>
    Done (weather_data <- response ;;
          cod <- PyObj.get weather_data "cod" JNull ;;
          if PyNum.eq_200 cod then weather_found w weather_data
          else Ok [("error", "City not found. Please check the city name.")])).

(** The outcome of the body of the [try] in a world. *)
Definition fetch (w : world) (url : string) : result info :=
  snd (run w (fetch_prog w url)).

(** Lines 13-90: the route, as a program. *)
Definition weather_prog (w : world) (req : request) : prog (option info) :=
  if String.eqb (method req) "POST" then
    match form_getitem (form req) "city" with
    | Raise e => Done (Raise e)
    | Ok raw =>
        let city := PyStr.strip raw in
        if negb (PyStr.truthy city) then
          Done (Ok (Some [("error", "Please enter a valid city name.")]))
        else if (100 <? length city)%nat then
          Done (Ok (Some [("error",
            "City name is too long. Please enter a valid city name.")]))
        else
          let url := base_url w city in
          prog_map
            (fun body =>
               weather_info <-
                 try_except_RequestException body
                   (fun e => [("error",
                      "An error occurred while fetching weather data: "
                        ++ e)]) ;;
               Ok (Some weather_info))
            (fetch_prog w url)
    end
  else Done (Ok None).

(** One run of the route: the log of the calls made and the outcome. *)
Definition weather (w : world) (req : request) : handled :=
  let (log, outcome) := run w (weather_prog w req) in
  {| requested := log; rendered := outcome |}.

(** A form submission of the field [city]. *)
Definition submit (raw : string) : request :=
  {| method := "POST"; form := [("city", raw)] |}.

(** The two shapes of the dictionary given to the template. *)
Definition success_keys : list string :=
  [ "city"; "day"; "date"; "temperature"; "feels_like"; "humidity";
    "description"; "wind_speed"; "wind_deg"; "sunrise"; "sunset" ].

Definition is_failure (i : info) : Prop :=
  exists message, i = [("error", message)].

Definition is_success (i : info) : Prop :=
  PyDict.keys i = success_keys.

(** ** Vocabulary of the statements *)

(** A city that passes both checks of lines 21 and 26. *)
Definition valid_city (city : string) : Prop :=
  city <> "" /\ (length city <= 100)%nat.

(** A string made of whitespace only. *)
Fixpoint all_space (s : string) : bool :=
  match s with
  | EmptyString => true
  | String c r => PyStr.isspace c && all_space r
  end.

(** The pieces of a text between the occurrences of a separator, as
    [s.split(sep)] gives them; on the query of a URL with ["&"], its
    parameters. *)
Fixpoint split_on (sep : ascii) (s : string) : list string :=
  match s with
  | EmptyString => [EmptyString]
  | String c r =>
      if Ascii.eqb c sep then EmptyString :: split_on sep r
      else
        match split_on sep r with
        | head :: tail => String c head :: tail
        | [] => [String c EmptyString]
        end
  end.

(** The dictionaries with an error message. *)
Definition empty_input : info :=
  [("error", "Please enter a valid city name.")].

Definition input_too_long : info :=
  [("error", "City name is too long. Please enter a valid city name.")].

Definition city_not_found : info :=
  [("error", "City not found. Please check the city name.")].

Definition transport_error (text : string) : info :=
  [("error", "An error occurred while fetching weather data: " ++ text)].

(** [float(x)], the binary64 value that the format code [f] renders. *)
Definition float_value (x : json) : option spec_float :=
  match PyNum.as_number x with
  | Some (PyNum.NInt z) => Some (PyNum.float_of_int z)
  | Some (PyNum.NFloat f) => Some f
  | None => None
  end.

(** The finite floats. *)
Definition is_finite_SF (f : spec_float) : bool :=
  match f with
  | S754_zero _ | S754_finite _ _ _ => true
  | S754_infinity _ | S754_nan => false
  end.

(** [n] hundredths is a nearest two-decimal value of [m * 2 ^ e]:
    the distance between [100 * m * 2 ^ e] and [n] is at most one half. *)
Definition nearest_hundredths (m : positive) (e : Z) (n : Z) : Prop :=
  if 0 <=? e then n = 100 * Zpos m * 2 ^ e
  else 2 * Z.abs (100 * Zpos m - n * 2 ^ (- e)) <= 2 ^ (- e).

(** [text] is the binary64 value [f] as the format code [.2f] writes
    it: a zero as [0.00] and a finite value as its integer part, a point
    and the two digits of a nearest number of hundredths, each after its
    sign; an infinite value as [inf] after its sign; a NaN as [nan]. *)
Definition written_2f (f : spec_float) (text : string) : Prop :=
  match f with
  | S754_zero s => text = PyNum.sign s ++ "0.00"
  | S754_finite s m e =>
      exists n,
        nearest_hundredths m e n /\ 0 <= n
        /\ text = PyNum.sign s ++ PyStr.str_int (n / 100) ++ "."
                    ++ PyNum.digit (n / 10 mod 10)
                    ++ PyNum.digit (n mod 10)
  | S754_infinity s => text = PyNum.sign s ++ "inf"
  | S754_nan => text = "nan"
  end.

(** [text] is the number [x] written with two decimals: its binary64
    value as [.2f] writes it, which for an integer below [2 ^ 53] in
    magnitude is the integer followed by [.00]. *)
Definition two_decimals (x : json) (text : string) : Prop :=
  (exists f, float_value x = Some f /\ written_2f f text)
  /\ (forall z,
        x = JInt z -> Z.abs z < 2 ^ 53 ->
        text = PyStr.str_int z ++ ".00").

(** [shown] is [desc] with its first character in title case and the
    others in lower case; the others are left as they are exactly when
    none of them is an upper-case letter. *)
Definition first_upper_rest_lower (desc shown : string) : Prop :=
  match desc with
  | EmptyString => shown = EmptyString
  | String c r =>
      exists rest,
        shown = PyStr.title_char c ++ rest
        /\ length rest = length r
        /\ (forall k x,
              String.get k r = Some x ->
              String.get k rest = Some (PyStr.lower_char x))
        /\ (rest = r
            <-> forall k x, String.get k r = Some x ->
                            PyStr.isupper x = false)
  end.

(** ** A stand-in world for concrete runs *)

Module Sample.

Definition two (n : Z) : string :=
  PyNum.digit (n / 10 mod 10) ++ PyNum.digit (n mod 10).

(** Seconds since the epoch as a time of day. *)
Definition hms (secs : Z) : string :=
  two (secs / 3600 mod 24) ++ ":" ++ two (secs / 60 mod 60)
    ++ ":" ++ two (secs mod 60).

(** A float timestamp in microseconds, rounded to the nearest one, ties
    to even; none for an infinity or a NaN. *)
Definition microseconds (f : spec_float) : option Z :=
  match f with
  | S754_zero _ => Some 0
  | S754_finite s m e =>
      let us :=
        if 0 <=? e then 1000000 * Zpos m * 2 ^ e
        else PyNum.round_half_even (1000000 * Zpos m) (2 ^ (- e)) in
      Some (if s then - us else us)
  | S754_infinity _ | S754_nan => None
  end.

(** The seconds between the first instant of year 1 and the last one of
    year 9999, which are the instants that [datetime] holds. *)
Definition in_years (secs : Z) : bool :=
  (-62135596800 <=? secs) && (secs <=? 253402300799).

(** The time of day of an instant given in whole seconds, as
    [fromtimestamp] and [strftime] give it on a platform with a 64-bit
    [time_t]. *)
Definition clock_seconds (secs : Z) (tz : Pytz.tzinfo) : result string :=
  if negb (in_years secs) then
    Raise (if 2 ^ 63 <=? Z.abs secs then OverflowError else ValueError)
  else if negb (in_years (secs + 3600 * Pytz.utcoffset_hours tz)) then
    Raise OverflowError
  else Ok (hms (secs + 3600 * Pytz.utcoffset_hours tz)).

Definition clock (ts : PyNum.number) (tz : Pytz.tzinfo) (fmt : string)
  : result string :=
  match ts with
  | PyNum.NInt z => clock_seconds z tz
  | PyNum.NFloat f =>
      match microseconds f with
      | Some us => clock_seconds (us / 1000000) tz
      | None =>
          Raise match f with
                | S754_nan => ValueError
                | _ => OverflowError
                end
      end
  end.

(** A world whose provider answers by [answer] and whose clock stands
    still. *)
Definition world_of (answer : string -> result json) : world :=
  {| API_Key := "KEY";
     requests_get := answer;
     now_strftime := fun _ fmt =>
       if String.eqb fmt "%A" then "Wednesday" else "04 November 2026";
     fromtimestamp_strftime := clock;
     repr := fun _ => "?" |}.

Definition serving (answer : json) : world :=
  world_of (fun _ => Ok answer).

Definition offline : world :=
  world_of (fun _ => Raise (RequestException "timed out")).

(** The float written [digits / 10 ^ places] in decimal, for operands
    that binary64 holds exactly. *)
Definition decimal (digits : Z) (places : Z) : spec_float :=
  SFdiv PyNum.prec PyNum.emax
    (PyNum.float_of_int digits) (PyNum.float_of_int (10 ^ places)).

(** An answer of the provider with the given [cod], main block,
    description, wind block and timezone. *)
Definition report_fields (cod : json) (main : list (string * json))
    (description : json) (wind : json) (timezone : json)
  : list (string * json) :=
  [ ("cod", cod);
    ("name", JStr "London");
    ("sys", JObj [ ("country", JStr "GB");
                   ("sunrise", JInt 1700000000);
                   ("sunset", JInt 1700030000) ]);
    ("main", JObj main);
    ("weather", JArr [ JObj [ ("description", description) ] ]);
    ("wind", wind);
    ("timezone", timezone) ].

Definition report (cod : json) (main : list (string * json))
    (description : json) (wind : json) (timezone : json) : json :=
  JObj (report_fields cod main description wind timezone).

Definition mild : list (string * json) :=
  [ ("temp", JFloat (decimal 21456 3));
    ("feels_like", JFloat (decimal (-5) 1));
    ("humidity", JInt 60) ].

Definition breeze : json :=
  JObj [ ("speed", JInt 4); ("deg", JInt 250) ].

(** A complete answer, five hours west of Greenwich. *)
Definition clear_sky : json :=
  report (JInt 200) mild (JStr "clear sky") breeze (JInt (-18000)).

(** The same without wind measurements. *)
Definition calm : json :=
  report (JInt 200) mild (JStr "clear sky") (JObj []) (JInt 0).

(** A description with capitals after the first letter. *)
Definition shouting : json :=
  report (JInt 200) mild (JStr "clear SKY") breeze (JInt 0).


(** An infinite temperature, as the body [1e999] parses, and an integer
    beyond [2 ^ 53]. *)
Definition unbounded : json :=
  report (JInt 200)
    [ ("temp", JFloat (S754_infinity false));
      ("feels_like", JInt 9007199254740993);
      ("humidity", JInt 60) ]
    (JStr "clear sky") breeze (JInt 0).

(** [cod] 404 and fields of unexpected types. *)
Definition lost : list (string * json) :=
  report_fields (JInt 404) [("temp", JStr "warm")] JNull (JArr []) JNull.

(** Nothing but the [cod]. *)
Definition bare : json := JObj [("cod", JInt 200)].

Definition letters (n : nat) : string :=
  string_of_list_ascii (repeat "a"%char n).

Definition spaces (n : nat) : string :=
  string_of_list_ascii (repeat " "%char n).

(** The dictionary rendered for [raw], empty when there is none. *)
Definition shown (w : world) (raw : string) : info :=
  match rendered (weather w (submit raw)) with
  | Ok (Some i) => i
  | _ => []
  end.

End Sample.

(** ** Further vocabulary *)

(** The world [w] with another HTTP client. *)
Definition with_client (get : string -> result json) (w : world) : world :=
  {| API_Key := API_Key w;
     requests_get := get;
     now_strftime := now_strftime w;
     fromtimestamp_strftime := fromtimestamp_strftime w;
     repr := repr w |}.

(** Lines 49 and 50: [wind.get(key, 'N/A')] on the fields of the wind
    block. *)
Definition wind_get (wind : list (string * json)) (key : string) : json :=
  match PyDict.lookup key wind with
  | Some value => value
  | None => JStr "N/A"
  end.

(** A string whose first character is whitespace. *)
Definition starts_with_space (s : string) : bool :=
  match s with
  | EmptyString => false
  | String c _ => PyStr.isspace c
  end.

(** A string whose last character is whitespace. *)
Fixpoint ends_with_space (s : string) : bool :=
  match s with
  | EmptyString => false
  | String c EmptyString => PyStr.isspace c
  | String _ r => ends_with_space r
  end.

(** The integer written by a decimal text, if any. *)
Definition int_str (s : string) : option Z :=
  option_map Z.of_int (NilZero.int_of_string s).

(** The zone of the handler for an offset whose hour names one. *)
Definition zone_of_offset (timezone_offset : Z) : Pytz.tzinfo :=
  {| Pytz.zone := zone_name timezone_offset;
     Pytz.utcoffset_hours := - hour_offset timezone_offset |}.

(** Splits a successful chain of [bind]s into its successful steps. *)
Ltac bind_inv H :=
  repeat match type of H with
    | bind ?m _ = Ok _ =>
        let E := fresh "E" in
        destruct m eqn:E; cbn [bind] in H; [|discriminate H]
    end.

(** Validity of a concrete city, by evaluation. *)
Ltac valid_by_evaluation :=
  split; [vm_compute; discriminate | vm_compute; lia].

(** * Properties *)

(** ** Strings *)

Section Strings.

Lemma append_assoc (a b c : string) : (a ++ b) ++ c = a ++ (b ++ c).
Proof.
  induction a as [|x a IH]; simpl; [reflexivity|]. now rewrite IH.
Qed.

Lemma split_on_nonempty (sep : ascii) (s : string) : split_on sep s <> [].
Proof.
  destruct s as [|c r]; simpl; [discriminate|].
  destruct (Ascii.eqb c sep); [discriminate|].
  destruct (split_on sep r); discriminate.
Qed.

(** Splitting a text that holds the separator: the pieces before it,
    then the pieces after it. *)
Lemma split_on_app (sep : ascii) (a b : string) :
  split_on sep (a ++ String sep b)
    = (split_on sep a ++ split_on sep b)%list.
Proof.
  induction a as [|c r IH]; simpl.
  - now rewrite Ascii.eqb_refl.
  - destruct (Ascii.eqb c sep); [now rewrite IH|].
    rewrite IH. pose proof (split_on_nonempty sep r) as Hne.
    destruct (split_on sep r); [contradiction | reflexivity].
Qed.

Lemma lstrip_all_space (s : string) :
  all_space s = true -> PyStr.lstrip s = "".
Proof.
  induction s as [|c r IH]; simpl; [reflexivity|].
  intros H. apply andb_prop in H as [Hc Hr].
  rewrite Hc. now apply IH.
Qed.

Lemma strip_all_space (s : string) :
  all_space s = true -> PyStr.strip s = "".
Proof.
  intros H. unfold PyStr.strip. now rewrite lstrip_all_space.
Qed.

Lemma rstrip_empty (s : string) :
  PyStr.rstrip s = "" -> all_space s = true.
Proof.
  induction s as [|c r IH]; simpl; [reflexivity|].
  destruct (PyStr.rstrip r) eqn:E; [|discriminate].
  destruct (PyStr.isspace c); [|discriminate].
  intros _. now rewrite IH.
Qed.

(** Only whitespace strips to the empty string. *)
Lemma strip_empty (s : string) :
  PyStr.strip s = "" -> all_space s = true.
Proof.
  unfold PyStr.strip.
  induction s as [|c r IH]; simpl; [reflexivity|].
  destruct (PyStr.isspace c) eqn:Hc.
  - intros H. now rewrite IH.
  - intros H. apply rstrip_empty in H. simpl in H.
    rewrite Hc in H. discriminate.
Qed.

Lemma lower_length (s : string) : length (PyStr.lower s) = length s.
Proof.
  induction s as [|c r IH]; simpl; [reflexivity | now rewrite IH].
Qed.

Lemma lower_get (s : string) (k : nat) (c : ascii) :
  String.get k s = Some c ->
  String.get k (PyStr.lower s) = Some (PyStr.lower_char c).
Proof.
  revert k. induction s as [|x r IH]; intros k; simpl; [discriminate|].
  destruct k as [|k]; [intros H; now injection H as -> | apply IH].
Qed.

Lemma lower_unchanged (s : string) :
  (forall k c, String.get k s = Some c -> PyStr.isupper c = false) ->
  PyStr.lower s = s.
Proof.
  induction s as [|x r IH]; intros H; simpl; [reflexivity|].
  unfold PyStr.lower_char. rewrite (H 0%nat x eq_refl).
  rewrite IH; [reflexivity|]. intros k c Hk. exact (H (S k) c Hk).
Qed.

Lemma lower_char_fixed (c : ascii) :
  PyStr.lower_char c = c -> PyStr.isupper c = false.
Proof.
  destruct c as [[] [] [] [] [] [] [] []]; vm_compute; intros H;
    first [reflexivity | discriminate H].
Qed.

Lemma lower_fixed (s : string) :
  PyStr.lower s = s ->
  forall k c, String.get k s = Some c -> PyStr.isupper c = false.
Proof.
  induction s as [|x r IH]; simpl; [discriminate|].
  intros H. injection H as Hx Hr. intros [|k] c Hk.
  - injection Hk as <-. now apply lower_char_fixed.
  - now apply (IH Hr k).
Qed.

Lemma capitalize_chars (s : string) :
  first_upper_rest_lower s (PyStr.capitalize s).
Proof.
  unfold first_upper_rest_lower. destruct s as [|x r]; simpl;
    [reflexivity|].
  exists (PyStr.lower r). split; [reflexivity|].
  split; [apply lower_length|]. split; [intros k c; apply lower_get|].
  split; [apply lower_fixed | apply lower_unchanged].
Qed.

(** The accented letters and the sharp s, by their code points. *)
Lemma capitalize_latin1 :
  PyStr.capitalize (String (ascii_of_N 252) "BER") =
    String (ascii_of_N 220) "ber"
  /\ PyStr.capitalize (String (ascii_of_N 223) "-Bahn") = "Ss-bahn"
  /\ PyStr.capitalize (String "e" (String (ascii_of_N 201) "")) =
       String "E" (String (ascii_of_N 233) "").
Proof. repeat split. Qed.

Lemma str_int_sign (z : Z) :
  PyStr.str_int z = PyNum.sign (z <? 0) ++ PyStr.str_int (Z.abs z).
Proof.
  destruct z; reflexivity.
Qed.

End Strings.

(** ** Numbers *)

Section Numbers.

Lemma round_half_even_nearest (num den : Z) :
  0 < den ->
  2 * Z.abs (num - PyNum.round_half_even num den * den) <= den.
Proof.
  intros Hden. unfold PyNum.round_half_even.
  pose proof (Z.div_mod num den ltac:(lia)) as Hdm.
  pose proof (Z.mod_pos_bound num den Hden) as Hr.
  set (q := num / den) in *. set (r := num mod den) in *.
  assert (Hq : num - q * den = r) by lia.
  assert (Hq1 : num - (q + 1) * den = r - den) by lia.
  destruct (Z.compare_spec (2 * r) den) as [C|C|C].
  - destruct (Z.even q); [rewrite Hq | rewrite Hq1]; lia.
  - rewrite Hq. lia.
  - rewrite Hq1. lia.
Qed.

Lemma round_half_even_nonneg (num den : Z) :
  0 <= num -> 0 < den -> 0 <= PyNum.round_half_even num den.
Proof.
  intros Hn Hd. unfold PyNum.round_half_even.
  pose proof (Z.div_pos num den Hn Hd).
  destruct (2 * (num mod den) ?= den); [destruct (Z.even _)| |]; lia.
Qed.

Lemma hundredths_nearest (m : positive) (e : Z) :
  nearest_hundredths m e (PyNum.hundredths m e)
  /\ 0 <= PyNum.hundredths m e.
Proof.
  unfold nearest_hundredths, PyNum.hundredths.
  destruct (Z.leb_spec 0 e) as [He|He].
  - split; [reflexivity|].
    pose proof (Z.pow_nonneg 2 e ltac:(lia)). nia.
  - assert (Hp : 0 < 2 ^ (- e)) by (apply Z.pow_pos_nonneg; lia).
    split.
    + now apply round_half_even_nearest.
    + apply round_half_even_nonneg; lia.
Qed.

Lemma format_2f_float_value (x : json) (text : string) :
  PyNum.format_2f x = Ok text ->
  exists f, float_value x = Some f /\ text = PyNum.format_float_2f f.
Proof.
  unfold PyNum.format_2f, float_value.
  destruct x; cbn [PyNum.as_number]; try discriminate.
  - destruct (PyNum.float_of_int (if b then 1 else 0)) eqn:E;
      intros H; try discriminate; injection H as <-; eexists; split;
      reflexivity.
  - destruct (PyNum.float_of_int z) eqn:E;
      intros H; try discriminate; injection H as <-; eexists; split;
      reflexivity.
  - intros H. injection H as <-. eexists; split; reflexivity.
Qed.

Lemma format_float_2f_written (f : spec_float) :
  written_2f f (PyNum.format_float_2f f).
Proof.
  destruct f as [s|s| |s m e]; cbn [written_2f PyNum.format_float_2f];
    try reflexivity.
  exists (PyNum.hundredths m e).
  destruct (hundredths_nearest m e) as [Hn H0].
  repeat split; auto.
Qed.

(** *** Integers below [2 ^ 53] convert to [float] without rounding *)

Lemma digits2_pos_bound (p : positive) :
  forall n, 0 <= n -> Zpos p < 2 ^ n -> Zpos (digits2_pos p) <= n.
Proof.
  induction p as [q IH|q IH|]; intros n Hn Hlt; cbn [digits2_pos].
  - assert (n <> 0) by (intros ->; cbn in Hlt; lia).
    replace n with (Z.succ (n - 1)) in Hlt by lia.
    rewrite Z.pow_succ_r in Hlt by lia.
    specialize (IH (n - 1) ltac:(lia) ltac:(lia)). lia.
  - assert (n <> 0) by (intros ->; cbn in Hlt; lia).
    replace n with (Z.succ (n - 1)) in Hlt by lia.
    rewrite Z.pow_succ_r in Hlt by lia.
    specialize (IH (n - 1) ltac:(lia) ltac:(lia)). lia.
  - assert (n <> 0) by (intros ->; cbn in Hlt; lia). lia.
Qed.

Lemma iter_xO_digits (p k : positive) :
  digits2_pos (Pos.iter xO p k) = (digits2_pos p + k)%positive.
Proof.
  induction k as [|k IH] using Pos.peano_ind.
  - cbn. lia.
  - rewrite Pos.iter_succ. cbn [digits2_pos]. rewrite IH. lia.
Qed.

Lemma iter_xO_value (p k : positive) :
  Zpos (Pos.iter xO p k) = Zpos p * 2 ^ Zpos k.
Proof.
  induction k as [|k IH] using Pos.peano_ind.
  - cbn. lia.
  - rewrite Pos.iter_succ, Pos2Z.inj_succ, Z.pow_succ_r by lia.
    rewrite Pos2Z.inj_xO, IH. lia.
Qed.

Lemma binary_round_aux_exact (s : bool) (m : positive) (e : Z) :
  Zpos (digits2_pos m) = 53 -> -1074 <= e <= 971 ->
  binary_round_aux 53 1024 s (Zpos m) e loc_Exact = S754_finite s m e.
Proof.
  intros Hd He.
  assert (Hshr : forall l, shr_fexp 53 1024 (Zpos m) e l =
                           (shr_record_of_loc (Zpos m) l, e)).
  { intros l. unfold shr_fexp, fexp, emin.
    cbn [Zdigits2]. rewrite Hd.
    replace (Z.max (53 + e - 53) (3 - 1024 - 53) - e) with 0 by lia.
    reflexivity. }
  unfold binary_round_aux. rewrite Hshr.
  cbn [shr_record_of_loc shr_m loc_of_shr_record round_nearest_even].
  rewrite Hshr. cbn [shr_record_of_loc shr_m].
  destruct (Z.leb_spec e (1024 - 53)); [reflexivity | lia].
Qed.

Lemma binary_round_exact (s : bool) (p : positive) :
  Zpos p < 2 ^ 53 ->
  exists m k,
    binary_round PyNum.prec PyNum.emax s p 0 = S754_finite s m (- k)
    /\ 0 <= k /\ Zpos m = Zpos p * 2 ^ k.
Proof.
  intros Hp.
  pose proof (digits2_pos_bound p 53 ltac:(lia) Hp) as Hd.
  unfold binary_round, shl_align, fexp, emin, PyNum.prec, PyNum.emax.
  replace (Z.max (Zpos (digits2_pos p) + 0 - 53) (3 - 1024 - 53) - 0)
    with (Zpos (digits2_pos p) - 53) by lia.
  replace (Z.max (Zpos (digits2_pos p) + 0 - 53) (3 - 1024 - 53))
    with (Zpos (digits2_pos p) - 53) by lia.
  destruct (Zpos (digits2_pos p) - 53) as [|k|k] eqn:E; [|lia|].
  - exists p, 0. rewrite (binary_round_aux_exact s p 0) by lia.
    repeat split; lia.
  - exists (Pos.iter xO p k), (Zpos k).
    rewrite <- E.
    rewrite (binary_round_aux_exact s (Pos.iter xO p k)).
    + rewrite E. repeat split; [lia | apply iter_xO_value].
    + rewrite iter_xO_digits. lia.
    + lia.
Qed.

Lemma float_of_int_exact (z : Z) :
  z <> 0 -> Z.abs z < 2 ^ 53 ->
  exists m k,
    PyNum.float_of_int z = S754_finite (z <? 0) m (- k)
    /\ 0 <= k /\ Zpos m = Z.abs z * 2 ^ k.
Proof.
  intros Hz Hb. unfold PyNum.float_of_int, binary_normalize.
  destruct z as [|p|p]; [congruence | |]; cbn [Z.abs Z.ltb Z.compare] in *;
    now apply binary_round_exact.
Qed.

Lemma hundredths_exact (m : positive) (k a : Z) :
  0 <= k -> Zpos m = a * 2 ^ k -> PyNum.hundredths m (- k) = 100 * a.
Proof.
  intros Hk Hm. unfold PyNum.hundredths.
  destruct (Z.leb_spec 0 (- k)) as [H|H].
  - assert (k = 0) by lia. subst k.
    change (2 ^ (- 0)) with 1. change (2 ^ 0) with 1 in Hm. lia.
  - rewrite Z.opp_involutive. unfold PyNum.round_half_even.
    assert (Hp : 0 < 2 ^ k) by (apply Z.pow_pos_nonneg; lia).
    replace (100 * Zpos m) with (100 * a * 2 ^ k) by lia.
    rewrite Z.mod_mul, Z.div_mul by lia.
    destruct (Z.compare_spec (2 * 0) (2 ^ k)); lia.
Qed.

Lemma fixed2_whole (a : Z) :
  0 <= a -> PyNum.fixed2 (100 * a) = PyStr.str_int a ++ ".00".
Proof.
  intros Ha. unfold PyNum.fixed2.
  replace (100 * a / 100) with a by (rewrite Z.mul_comm, Z.div_mul; lia).
  replace (100 * a / 10) with (a * 10) by
    (replace (100 * a) with (a * 10 * 10) by lia; rewrite Z.div_mul; lia).
  rewrite Z.mod_mul by lia.
  replace (100 * a) with (a * 10 * 10) by lia.
  rewrite Z.mod_mul by lia. reflexivity.
Qed.

(** An integer below [2 ^ 53] in magnitude is written in full, followed
    by [.00]. *)
Lemma format_2f_int (z : Z) :
  Z.abs z < 2 ^ 53 ->
  PyNum.format_2f (JInt z) = Ok (PyStr.str_int z ++ ".00").
Proof.
  intros Hb. rewrite (str_int_sign z), append_assoc.
  destruct (Z.eq_dec z 0) as [->|Hz]; [reflexivity|].
  destruct (float_of_int_exact z Hz Hb) as (m & k & Hf & Hk & Hm).
  unfold PyNum.format_2f. cbn [PyNum.as_number]. rewrite Hf.
  cbn [PyNum.format_float_2f].
  rewrite (hundredths_exact m k (Z.abs z) Hk Hm), fixed2_whole by lia.
  reflexivity.
Qed.

(** What [format_2f] writes is its argument rounded to two decimals. *)
Lemma format_2f_two_decimals (x : json) (text : string) :
  PyNum.format_2f x = Ok text -> two_decimals x text.
Proof.
  intros Hfmt. split.
  - destruct (format_2f_float_value x text Hfmt) as [f [Hval ->]].
    exists f. split; [exact Hval | apply format_float_2f_written].
  - intros z -> Hb. rewrite (format_2f_int z Hb) in Hfmt.
    now injection Hfmt as <-.
Qed.

End Numbers.

(** ** The zone *)

Section Zone.

Lemma etc_zone_of_hour (h : Z) (b : bool) :
  -14 <= h <= 12 ->
  (h < 0 -> b = false) ->
  (0 < h -> b = true) ->
  Pytz.timezone ("Etc/GMT" ++ (if b then "+" else "") ++ PyStr.str_int h) =
    Ok {| Pytz.zone :=
            "Etc/GMT" ++ (if b then "+" else "") ++ PyStr.str_int h;
          Pytz.utcoffset_hours := - h |}.
Proof.
  intros Hh Hneg Hpos.
  assert (C : h = -14 \/ h = -13 \/ h = -12 \/ h = -11 \/ h = -10
              \/ h = -9 \/ h = -8 \/ h = -7 \/ h = -6 \/ h = -5
              \/ h = -4 \/ h = -3 \/ h = -2 \/ h = -1 \/ h = 0
              \/ h = 1 \/ h = 2 \/ h = 3 \/ h = 4 \/ h = 5 \/ h = 6
              \/ h = 7 \/ h = 8 \/ h = 9 \/ h = 10 \/ h = 11
              \/ h = 12) by lia.
  repeat destruct C as [C|C]; subst h; destruct b;
    first [ reflexivity
          | assert (true = false) by (apply Hneg; lia); discriminate
          | assert (false = true) by (apply Hpos; lia); discriminate ].
Qed.

(** C1, as the code has it.  The hour in the zone name is the floor of
    [-offset / 3600]: the largest [h] with [3600 * h <= -offset].  It is
    the quotient truncated toward zero exactly when the offset is
    negative, zero or a multiple of 3600.  Whenever that hour names a
    zone of the database, this is the zone the handler uses. *)
Theorem hour_offset_is_floor (timezone_offset : Z) :
  3600 * hour_offset timezone_offset <= - timezone_offset
    < 3600 * (hour_offset timezone_offset + 1)
  /\ (hour_offset timezone_offset = Z.quot (- timezone_offset) 3600
      <-> timezone_offset <= 0 \/ timezone_offset mod 3600 = 0)
  /\ (-14 <= hour_offset timezone_offset <= 12 ->
      local_timezone (JInt timezone_offset) =
        Ok {| Pytz.zone := zone_name timezone_offset;
              Pytz.utcoffset_hours := - hour_offset timezone_offset |}).
Proof.
  unfold hour_offset.
  pose proof (Z.div_mod (- timezone_offset) 3600 ltac:(lia)) as Hdm.
  pose proof (Z.mod_pos_bound (- timezone_offset) 3600 ltac:(lia)) as Hm.
  split; [lia|]. split.
  - pose proof (Z.quot_rem' (- timezone_offset) 3600) as Hqr.
    pose proof (Z.div_mod timezone_offset 3600 ltac:(lia)) as Hdm'.
    pose proof (Z.mod_pos_bound timezone_offset 3600 ltac:(lia)) as Hm'.
    destruct (Z_le_gt_dec timezone_offset 0) as [Hle|Hgt].
    + pose proof (Z.rem_bound_pos (- timezone_offset) 3600
                    ltac:(lia) ltac:(lia)).
      lia.
    + pose proof (Z.rem_bound_pos_neg (- timezone_offset) 3600
                    ltac:(lia) ltac:(lia)).
      lia.
  - intros Hh. unfold local_timezone, zone_name, hour_offset.
    cbn [PyNum.as_number].
    apply etc_zone_of_hour; [exact Hh | |];
      intros Hs; destruct (Z.ltb_spec timezone_offset 0); auto; lia.
Qed.

(** C1, counterexample.  For the offset of UTC+5:30 the code names the
    zone with hour -6, where truncation toward zero gives -5. *)
Lemma hour_offset_is_not_truncation :
  hour_offset 19800 = -6
  /\ Z.quot (- 19800) 3600 = -5
  /\ local_timezone (JInt 19800) =
       Ok {| Pytz.zone := "Etc/GMT-6"; Pytz.utcoffset_hours := 6 |}
  /\ hour_offset 19800 <> Z.quot (- 19800) 3600.
Proof.
  repeat split. vm_compute. discriminate.
Qed.

End Zone.

(** ** The handler *)

(** The outcome of the [try] body: the call, then lines 36 to 83. *)
Lemma fetch_eq (w : world) (url : string) :
  fetch w url =
    (weather_data <- requests_get w url ;;
     cod <- PyObj.get weather_data "cod" JNull ;;
     if PyNum.eq_200 cod then weather_found w weather_data
     else Ok city_not_found).
Proof. reflexivity. Qed.

Section Handler.

Variable w : world.

(** The route on a submitted city. *)
Lemma weather_submit (raw : string) :
  weather w (submit raw) =
    let city := PyStr.strip raw in
    if negb (PyStr.truthy city) then
      {| requested := []; rendered := Ok (Some empty_input) |}
    else if (100 <? length city)%nat then
      {| requested := []; rendered := Ok (Some input_too_long) |}
    else
      {| requested := [base_url w city];
         rendered :=
           weather_info <-
             try_except_RequestException (fetch w (base_url w city))
               transport_error ;;
           Ok (Some weather_info) |}.
Proof.
  unfold weather, weather_prog, submit, form_getitem. cbn [method form].
  cbn [String.eqb Ascii.eqb Bool.eqb PyDict.lookup]. cbv zeta.
  destruct (negb (PyStr.truthy (PyStr.strip raw))); [reflexivity|].
  destruct (100 <? length (PyStr.strip raw))%nat; reflexivity.
Qed.

Lemma weather_valid (raw : string) :
  valid_city (PyStr.strip raw) ->
  weather w (submit raw) =
    {| requested := [base_url w (PyStr.strip raw)];
       rendered :=
         weather_info <-
           try_except_RequestException
             (fetch w (base_url w (PyStr.strip raw))) transport_error ;;
         Ok (Some weather_info) |}.
Proof.
  intros [Hne Hlen]. rewrite weather_submit. cbv zeta.
  destruct (PyStr.strip raw) as [|c r] eqn:E; [congruence|].
  cbn [PyStr.truthy negb].
  destruct (Nat.ltb_spec 100 (length (String c r))) as [Hlt|_]; [lia|].
  reflexivity.
Qed.

(** The program of a valid city: one call, then a step that ends. *)
Lemma weather_prog_valid (raw : string) :
  valid_city (PyStr.strip raw) ->
  exists k,
    weather_prog w (submit raw) = Get (base_url w (PyStr.strip raw)) k
    /\ forall response, exists outcome, k response = Done outcome.
Proof.
  intros [Hne Hlen]. unfold weather_prog, submit, form_getitem.
  cbn [method form String.eqb Ascii.eqb Bool.eqb PyDict.lookup]. cbv zeta.
  destruct (PyStr.strip raw) as [|c r] eqn:E; [congruence|].
  cbn [PyStr.truthy negb].
  destruct (Nat.ltb_spec 100 (length (String c r))) as [Hlt|_]; [lia|].
  unfold fetch_prog. cbn [prog_map]. eexists. split; [reflexivity|].
  intros response. eexists. reflexivity.
Qed.

(** *** Validation *)

(** C5. A submission made of whitespace only, the empty one included,
    is answered by "Please enter a valid city name." without any call
    to the provider, whatever its length: the emptiness check of line 21
    comes before the length check of line 26. *)
Theorem whitespace_only_is_rejected (raw : string) :
  all_space raw = true ->
  weather w (submit raw) =
    {| requested := []; rendered := Ok (Some empty_input) |}.
Proof.
  intros H. rewrite weather_submit, (strip_all_space raw H). reflexivity.
Qed.

(** C4. A submission whose stripped text is longer than 100 characters
    is answered by "City name is too long. Please enter a valid city
    name.", and the provider is not called: the log of requests is
    empty and the answer is the same in every world. *)
Theorem too_long_is_rejected (raw : string) :
  (100 < length (PyStr.strip raw))%nat ->
  weather w (submit raw) =
    {| requested := []; rendered := Ok (Some input_too_long) |}.
Proof.
  intros H. rewrite weather_submit. cbv zeta.
  destruct (PyStr.strip raw) as [|c r] eqn:E; [simpl in H; lia|].
  cbn [PyStr.truthy negb].
  destruct (Nat.ltb_spec 100 (length (String c r))) as [_|Hle]; [|lia].
  reflexivity.
Qed.

(** *** The request sent to the provider *)

(** C10. For a city that passes validation the handler calls the
    provider once, and the URL of that call, the only entry of the log,
    is the plain concatenation of the fixed prefix, the API key,
    ["&q="], the stripped city and ["&units=metric"].  Nothing is
    escaped: when the city holds an ["&"], what follows it is split into
    parameters of the query like the rest of the URL, each piece between
    two ["&"] standing as a parameter of its own before
    [units=metric]. *)
Theorem request_url_is_raw_concatenation (raw : string) :
  valid_city (PyStr.strip raw) ->
  requested (weather w (submit raw)) =
    [ "http://api.openweathermap.org/data/2.5/weather?appid=" ++ API_Key w
        ++ "&q=" ++ PyStr.strip raw ++ "&units=metric" ]
  /\ (exists k,
        weather_prog w (submit raw) =
          Get ("http://api.openweathermap.org/data/2.5/weather?appid="
                 ++ API_Key w ++ "&q=" ++ PyStr.strip raw ++ "&units=metric")
              k)
  /\ forall city extra,
       PyStr.strip raw = city ++ "&" ++ extra ->
       exists url,
         requested (weather w (submit raw)) = [url]
         /\ split_on "&" url =
              (split_on "&"
                 ("http://api.openweathermap.org/data/2.5/weather?appid="
                    ++ API_Key w ++ "&q=" ++ city)
                 ++ split_on "&" extra ++ ["units=metric"])%list.
Proof.
  intros Hv. rewrite (weather_valid raw Hv). cbn [requested].
  split; [reflexivity|]. split.
  { destruct (weather_prog_valid raw Hv) as (k & Hk & _). now exists k. }
  unfold base_url.
  intros city extra ->. eexists. split; [reflexivity|].
  replace ("http://api.openweathermap.org/data/2.5/weather?appid="
             ++ API_Key w ++ "&q=" ++ (city ++ "&" ++ extra)
             ++ "&units=metric")
    with (("http://api.openweathermap.org/data/2.5/weather?appid="
             ++ API_Key w ++ "&q=" ++ city)
            ++ String "&" (extra ++ String "&" "units=metric"))
    by (rewrite !append_assoc; reflexivity).
  rewrite !split_on_app. reflexivity.
Qed.

(** *** The answer of the provider *)

(** C6. When the parsed answer is an object whose [cod] is absent or
    does not compare equal to 200, the handler renders "City not found.
    Please check the city name.", whatever else the object holds. *)
Theorem cod_not_200_is_city_not_found
    (raw : string) (fields : list (string * json)) :
  valid_city (PyStr.strip raw) ->
  requests_get w (base_url w (PyStr.strip raw)) = Ok (JObj fields) ->
  (forall cod, PyDict.lookup "cod" fields = Some cod ->
               PyNum.eq_200 cod = false) ->
  weather w (submit raw) =
    {| requested := [base_url w (PyStr.strip raw)];
       rendered := Ok (Some city_not_found) |}.
Proof.
  intros Hv Hget Hcod. rewrite (weather_valid raw Hv).
  rewrite fetch_eq, Hget. cbn [bind PyObj.get].
  destruct (PyDict.lookup "cod" fields) as [cod|] eqn:E; cbn [bind].
  - rewrite (Hcod cod eq_refl). reflexivity.
  - reflexivity.
Qed.

(** *** Exceptions *)

Lemma try_except_escapes {A : Type} (body : result A)
    (handler : string -> A) (e : exn) :
  try_except_RequestException body handler = Raise e ->
  body = Raise e /\ is_RequestException e = false.
Proof.
  destruct body as [a|e']; cbn; [discriminate|].
  destruct e'; cbn; intros H; try discriminate;
    injection H as <-; split; reflexivity.
Qed.

Lemma try_except_passes {A : Type} (body : result A)
    (handler : string -> A) (e : exn) :
  body = Raise e -> is_RequestException e = false ->
  try_except_RequestException body handler = Raise e.
Proof.
  intros -> He. destruct e; cbn in *; congruence.
Qed.


(** *** The dictionary of a found city *)

Lemma failure_not_success (i : info) : is_failure i -> ~ is_success i.
Proof.
  intros [message ->]. unfold is_success. cbn. discriminate.
Qed.

Lemma weather_found_keys (weather_data : json) (i : info) :
  weather_found w weather_data = Ok i -> is_success i.
Proof.
  unfold weather_found. intros H. bind_inv H.
  injection H as <-. reflexivity.
Qed.

Lemma weather_found_fields (weather_data : json) (i : info) :
  weather_found w weather_data = Ok i ->
  exists main temp feels wind temp_text feels_text,
    PyObj.getitem weather_data "main" = Ok (JObj main)
    /\ PyDict.lookup "temp" main = Some temp
    /\ PyDict.lookup "feels_like" main = Some feels
    /\ PyObj.getitem weather_data "wind" = Ok (JObj wind)
    /\ PyNum.format_2f temp = Ok temp_text
    /\ PyNum.format_2f feels = Ok feels_text
    /\ PyDict.lookup "temperature" i
       = Some (temp_text ++ PyStr.degree ++ "C")
    /\ PyDict.lookup "feels_like" i
       = Some (feels_text ++ PyStr.degree ++ "C")
    /\ PyDict.lookup "wind_speed" i
       = Some (PyNum.format_str (repr w)
                 match PyDict.lookup "speed" wind with
                 | Some v => v
                 | None => JStr "N/A"
                 end ++ " m/s")
    /\ PyDict.lookup "wind_deg" i
       = Some (PyNum.format_str (repr w)
                 match PyDict.lookup "deg" wind with
                 | Some v => v
                 | None => JStr "N/A"
                 end ++ PyStr.degree).
Proof.
  unfold weather_found. intros H. bind_inv H. injection H as <-.
  match goal with
  | Et : PyObj.getitem ?m "temp" = Ok ?t,
    Ef : PyObj.getitem ?m "feels_like" = Ok ?f,
    Es : PyObj.get ?wi "speed" _ = Ok ?s,
    Ed : PyObj.get ?wi "deg" _ = Ok ?d,
    Ft : PyNum.format_2f ?t = Ok ?tt,
    Ff : PyNum.format_2f ?f = Ok ?ft |- _ =>
      destruct m as [| | | | | |main]; try discriminate Et;
      destruct wi as [| | | | | |wind]; try discriminate Es;
      cbn [PyObj.getitem] in Et, Ef; cbn [PyObj.get] in Es, Ed;
      exists main, t, f, wind, tt, ft;
      destruct (PyDict.lookup "temp" main); [|discriminate Et];
      destruct (PyDict.lookup "feels_like" main); [|discriminate Ef];
      injection Et as ->; injection Ef as ->;
      destruct (PyDict.lookup "speed" wind); injection Es as <-;
      destruct (PyDict.lookup "deg" wind); injection Ed as <-;
      repeat split; (assumption || reflexivity)
  end.
Qed.

Lemma weather_found_description (weather_data : json) (i : info) :
  weather_found w weather_data = Ok i ->
  exists reports report0 desc,
    PyObj.getitem weather_data "weather" = Ok reports
    /\ PyObj.getitem0 reports = Ok report0
    /\ PyObj.getitem report0 "description" = Ok (JStr desc)
    /\ PyDict.lookup "description" i = Some (PyStr.capitalize desc).
Proof.
  unfold weather_found. intros H. bind_inv H. injection H as <-.
  match goal with
  | Ec : PyObj.capitalize ?d = Ok _ |- _ =>
      destruct d; try discriminate Ec;
      cbn [PyObj.capitalize] in Ec; injection Ec as <-
  end.
  do 3 eexists. repeat split; eassumption || reflexivity.
Qed.

Lemma fetch_cases (url : string) (i : info) :
  fetch w url = Ok i ->
  i = city_not_found \/
  exists weather_data,
    requests_get w url = Ok weather_data /\
    weather_found w weather_data = Ok i.
Proof.
  rewrite fetch_eq. intros H.
  destruct (requests_get w url) as [weather_data|e]; [|discriminate].
  cbn [bind] in H.
  destruct (PyObj.get weather_data "cod" JNull) as [cod|e]; [|discriminate].
  cbn [bind] in H. destruct (PyNum.eq_200 cod).
  - right. exists weather_data. split; [reflexivity | exact H].
  - left. now injection H as <-.
Qed.

(** A rendered dictionary is one of the error dictionaries or the
    dictionary built from the answer of the provider. *)
Lemma weather_rendered (raw : string) (o : option info) :
  rendered (weather w (submit raw)) = Ok o ->
  exists i, o = Some i /\
    (is_failure i \/
     exists weather_data,
       valid_city (PyStr.strip raw) /\
       requests_get w (base_url w (PyStr.strip raw)) = Ok weather_data /\
       weather_found w weather_data = Ok i).
Proof.
  rewrite weather_submit. cbv zeta.
  destruct (PyStr.strip raw) as [|c r] eqn:E; cbn [PyStr.truthy negb].
  - cbn [rendered]. intros H. injection H as <-.
    exists empty_input. split; [reflexivity|]. left. now eexists.
  - destruct (Nat.ltb_spec 100 (length (String c r))) as [Hlt|Hle];
      cbn [rendered]; intros H.
    + injection H as <-. exists input_too_long.
      split; [reflexivity|]. left. now eexists.
    + unfold try_except_RequestException in H.
      destruct (fetch w (base_url w (String c r))) as [i|e] eqn:F.
      * cbn [bind] in H. injection H as <-.
        exists i. split; [reflexivity|].
        apply fetch_cases in F as [->|[wd [G F]]].
        -- left. now eexists.
        -- right. exists wd. repeat split; auto. discriminate.
      * destruct e; try discriminate. cbn [bind] in H.
        injection H as <-. eexists. split; [reflexivity|].
        left. now eexists.
Qed.

Lemma weather_success (raw : string) (i : info) :
  rendered (weather w (submit raw)) = Ok (Some i) ->
  is_success i ->
  exists weather_data,
    requests_get w (base_url w (PyStr.strip raw)) = Ok weather_data /\
    weather_found w weather_data = Ok i.
Proof.
  intros H S. apply weather_rendered in H as [i' [Hi [F|[wd [_ [G Hf]]]]]];
    injection Hi as <-.
  - now apply failure_not_success in F.
  - now exists wd.
Qed.

Lemma lookup_keys {V : Type} (k : string) (d : list (string * V)) :
  In k (PyDict.keys d) -> exists v, PyDict.lookup k d = Some v.
Proof.
  induction d as [|[k' v] d IH]; cbn; [tauto|].
  intros [->|H].
  - rewrite String.eqb_refl. now eexists.
  - destruct (String.eqb k k'); [now eexists | now apply IH].
Qed.

(** C9, as the code has it.  Whenever the handler renders, that is,
    whenever no exception leaves it, the dictionary given to the
    template is of exactly one of the two shapes: a single error message,
    or the eleven display fields, each of them set. *)
Theorem rendered_is_failure_or_full_success
    (raw : string) (o : option info) :
  rendered (weather w (submit raw)) = Ok o ->
  exists i,
    o = Some i
    /\ (is_failure i /\ ~ is_success i \/ is_success i /\ ~ is_failure i)
    /\ (is_success i ->
        forall key, In key success_keys ->
                    exists value, PyDict.lookup key i = Some value).
Proof.
  intros H. apply weather_rendered in H as [i [-> Hi]].
  exists i. split; [reflexivity|]. split.
  - destruct Hi as [F|[wd [_ [_ Hf]]]].
    + left. split; [exact F | now apply failure_not_success].
    + right. apply weather_found_keys in Hf. split; [exact Hf|].
      intros F. now apply failure_not_success in F.
  - intros S key Hk. apply lookup_keys. now rewrite S.
Qed.

(** *** Wind *)

(** C8. In a rendered success the answer of the provider holds a wind
    block; when that block has no [speed] the wind speed shown is
    "N/A m/s", and when it has no [deg] the wind direction shown is
    "N/A" followed by the degree sign. *)
Theorem missing_wind_defaults_to_NA (raw : string) (i : info) :
  rendered (weather w (submit raw)) = Ok (Some i) ->
  is_success i ->
  exists weather_data wind,
    requests_get w (base_url w (PyStr.strip raw)) = Ok weather_data
    /\ PyObj.getitem weather_data "wind" = Ok (JObj wind)
    /\ (PyDict.lookup "speed" wind = None ->
        PyDict.lookup "wind_speed" i = Some "N/A m/s")
    /\ (PyDict.lookup "deg" wind = None ->
        PyDict.lookup "wind_deg" i = Some ("N/A" ++ PyStr.degree)).
Proof.
  intros H S.
  destruct (weather_success raw i H S) as [wd [G F]].
  apply weather_found_fields in F
    as (main & temp & feels & wind & tt & ft & _ & _ & _ & Hw & _ & _
        & _ & _ & Ls & Ld).
  exists wd, wind. repeat split; auto.
  - intros N. now rewrite N in Ls.
  - intros N. now rewrite N in Ld.
Qed.

(** *** Temperatures *)

(** C7, as the code has it.  In a rendered success the temperature and
    the feels-like temperature shown are the binary64 values of [temp]
    and [feels_like] written with two decimals and followed by the
    degree sign and "C": a finite value as its sign, integer part, a
    point and exactly two digits of a nearest number of hundredths, an
    integer below [2 ^ 53] in magnitude in full followed by [.00], the
    temperature 21.456 as 21.46; an infinite value as [inf] after its
    sign and a NaN as [nan]. *)
Theorem temperatures_have_two_decimals (raw : string) (i : info) :
  rendered (weather w (submit raw)) = Ok (Some i) ->
  is_success i ->
  exists weather_data main temp feels temp_text feels_text,
    requests_get w (base_url w (PyStr.strip raw)) = Ok weather_data
    /\ PyObj.getitem weather_data "main" = Ok (JObj main)
    /\ PyDict.lookup "temp" main = Some temp
    /\ PyDict.lookup "feels_like" main = Some feels
    /\ PyDict.lookup "temperature" i
       = Some (temp_text ++ PyStr.degree ++ "C")
    /\ PyDict.lookup "feels_like" i
       = Some (feels_text ++ PyStr.degree ++ "C")
    /\ two_decimals temp temp_text
    /\ two_decimals feels feels_text
    /\ (temp = JFloat (Sample.decimal 21456 3) -> temp_text = "21.46").
Proof.
  intros H S.
  destruct (weather_success raw i H S) as [wd [G F]].
  apply weather_found_fields in F
    as (main & temp & feels & wind & tt & ft & Hm & Ht & Hf & _ & Ftt & Fft
        & Lt & Lf & _ & _).
  exists wd, main, temp, feels, tt, ft.
  repeat (split; [assumption || now apply format_2f_two_decimals|]).
  intros ->. vm_compute in Ftt. now injection Ftt as <-.
Qed.

(** *** The description *)

(** C2, as the code has it.  In a rendered success the description of
    the first weather report is a string, and what is shown is its
    capitalized form: the first character in title case (the upper case
    of a letter, [Ss] for the sharp s) and every later character in
    lower case, so the later characters are the received ones exactly
    when none of them is an upper-case letter.  The statement covers the
    descriptions of code points below 256 whose first character is
    neither the micro sign nor the y with diaeresis, whose title case
    lies beyond 255. *)
Theorem description_first_upper_rest_lower (raw : string) (i : info) :
  rendered (weather w (submit raw)) = Ok (Some i) ->
  is_success i ->
  exists weather_data reports report0 desc shown,
    requests_get w (base_url w (PyStr.strip raw)) = Ok weather_data
    /\ PyObj.getitem weather_data "weather" = Ok reports
    /\ PyObj.getitem0 reports = Ok report0
    /\ PyObj.getitem report0 "description" = Ok (JStr desc)
    /\ PyDict.lookup "description" i = Some shown
    /\ (PyStr.capitalizable desc = true ->
        first_upper_rest_lower desc shown).
Proof.
  intros H S.
  destruct (weather_success raw i H S) as [wd [G F]].
  apply weather_found_description in F
    as (reports & report0 & desc & Hr & Hr0 & Hd & L).
  exists wd, reports, report0, desc, (PyStr.capitalize desc).
  repeat (split; [assumption|]). intros _. apply capitalize_chars.
Qed.

End Handler.

(** * Concrete runs *)

(** C5 on 120 spaces: longer than the limit, and still answered as an
    empty submission. *)
Lemma whitespace_only_is_rejected_witness :
  all_space (Sample.spaces 120) = true
  /\ weather (Sample.serving Sample.clear_sky) (submit (Sample.spaces 120)) =
       {| requested := []; rendered := Ok (Some empty_input) |}.
Proof.
  split; [vm_compute; reflexivity|].
  apply (whitespace_only_is_rejected
           (Sample.serving Sample.clear_sky) (Sample.spaces 120)).
  vm_compute; reflexivity.
Defined.

(** C4 on 101 letters between two spaces. *)
Lemma too_long_is_rejected_witness :
  (100 < length (PyStr.strip (" " ++ Sample.letters 101 ++ " ")))%nat
  /\ weather (Sample.serving Sample.clear_sky)
             (submit (" " ++ Sample.letters 101 ++ " ")) =
       {| requested := []; rendered := Ok (Some input_too_long) |}.
Proof.
  split; [vm_compute; lia|].
  apply (too_long_is_rejected
           (Sample.serving Sample.clear_sky)
           (" " ++ Sample.letters 101 ++ " ")).
  vm_compute; lia.
Defined.

(** C10 on a city that carries a parameter of its own. *)
Lemma request_url_is_raw_concatenation_witness :
  valid_city (PyStr.strip " London&units=imperial ")
  /\ requested (weather (Sample.serving Sample.clear_sky)
                        (submit " London&units=imperial ")) =
       [ "http://api.openweathermap.org/data/2.5/weather?appid=KEY&q=London&units=imperial&units=metric" ]
  /\ exists url,
       requested (weather (Sample.serving Sample.clear_sky)
                          (submit " London&units=imperial ")) = [url]
       /\ split_on "&" url =
            [ "http://api.openweathermap.org/data/2.5/weather?appid=KEY";
              "q=London"; "units=imperial"; "units=metric" ].
Proof.
  assert (Hv : valid_city (PyStr.strip " London&units=imperial "))
    by valid_by_evaluation.
  split; [exact Hv|].
  destruct (request_url_is_raw_concatenation
              (Sample.serving Sample.clear_sky)
              " London&units=imperial " Hv) as (Hurl & _ & Hsplit).
  split; [exact Hurl|].
  exact (Hsplit "London" "units=imperial" eq_refl).
Defined.

(** C6 on [cod] 404 with a string for a temperature, no description, a
    list for the wind and no timezone. *)
Lemma cod_not_200_is_city_not_found_witness :
  valid_city (PyStr.strip "Atlantis")
  /\ requests_get (Sample.serving (JObj Sample.lost))
       (base_url (Sample.serving (JObj Sample.lost)) (PyStr.strip "Atlantis"))
     = Ok (JObj Sample.lost)
  /\ (forall cod, PyDict.lookup "cod" Sample.lost = Some cod ->
                  PyNum.eq_200 cod = false)
  /\ weather (Sample.serving (JObj Sample.lost)) (submit "Atlantis") =
       {| requested :=
            [base_url (Sample.serving (JObj Sample.lost))
                      (PyStr.strip "Atlantis")];
          rendered := Ok (Some city_not_found) |}.
Proof.
  assert (Hv : valid_city (PyStr.strip "Atlantis")) by valid_by_evaluation.
  assert (Hcod : forall cod, PyDict.lookup "cod" Sample.lost = Some cod ->
                             PyNum.eq_200 cod = false).
  { intros cod H. vm_compute in H. injection H as <-. reflexivity. }
  split; [exact Hv|]. split; [reflexivity|]. split; [exact Hcod|].
  exact (cod_not_200_is_city_not_found
           (Sample.serving (JObj Sample.lost)) "Atlantis" Sample.lost
           Hv eq_refl Hcod).
Defined.



(** C9 on a complete answer: all eleven fields, as shown. *)
Lemma rendered_is_failure_or_full_success_witness :
  rendered (weather (Sample.serving Sample.clear_sky) (submit "London")) =
    Ok (Some
      [ ("city", "London, GB"); ("day", "Wednesday");
        ("date", "04 November 2026");
        ("temperature", "21.46" ++ PyStr.degree ++ "C");
        ("feels_like", "-0.50" ++ PyStr.degree ++ "C");
        ("humidity", "60%"); ("description", "Clear sky");
        ("wind_speed", "4 m/s"); ("wind_deg", "250" ++ PyStr.degree);
        ("sunrise", "17:13:20"); ("sunset", "01:33:20") ])
  /\ is_success (Sample.shown (Sample.serving Sample.clear_sky) "London")
  /\ ~ is_failure (Sample.shown (Sample.serving Sample.clear_sky) "London").
Proof.
  assert (H : rendered (weather (Sample.serving Sample.clear_sky)
                                (submit "London")) =
              Ok (Some (Sample.shown (Sample.serving Sample.clear_sky)
                                     "London")))
    by (vm_compute; reflexivity).
  split; [vm_compute; reflexivity|].
  destruct (rendered_is_failure_or_full_success
              (Sample.serving Sample.clear_sky) "London" _ H)
    as (i & Hi & [[F _]|[S NF]] & _); injection Hi as <-.
  - destruct F as [message Hm]. vm_compute in Hm. discriminate Hm.
  - exact (conj S NF).
Defined.

(** C9, counterexample.  The provider answers [{"cod": 200}] and
    nothing else: reading [name] raises [KeyError], so the call produces
    neither of the two shapes. *)
Lemma missing_field_produces_no_result :
  rendered (weather (Sample.serving Sample.bare) (submit "London"))
    = Raise (KeyError "name")
  /\ ~ (exists i,
          rendered (weather (Sample.serving Sample.bare) (submit "London"))
            = Ok (Some i)
          /\ (is_success i \/ is_failure i)).
Proof.
  assert (H : rendered (weather (Sample.serving Sample.bare)
                                (submit "London")) = Raise (KeyError "name"))
    by (vm_compute; reflexivity).
  split; [exact H|].
  intros [i [Hi _]]. rewrite H in Hi. discriminate.
Qed.

(** C8 on an answer whose wind block is empty. *)
Lemma missing_wind_defaults_to_NA_witness :
  rendered (weather (Sample.serving Sample.calm) (submit "London")) =
    Ok (Some (Sample.shown (Sample.serving Sample.calm) "London"))
  /\ is_success (Sample.shown (Sample.serving Sample.calm) "London")
  /\ PyDict.lookup "wind_speed"
       (Sample.shown (Sample.serving Sample.calm) "London")
     = Some "N/A m/s"
  /\ PyDict.lookup "wind_deg"
       (Sample.shown (Sample.serving Sample.calm) "London")
     = Some ("N/A" ++ PyStr.degree).
Proof.
  assert (H : rendered (weather (Sample.serving Sample.calm)
                                (submit "London")) =
              Ok (Some (Sample.shown (Sample.serving Sample.calm) "London")))
    by (vm_compute; reflexivity).
  assert (S : is_success (Sample.shown (Sample.serving Sample.calm) "London"))
    by (vm_compute; reflexivity).
  split; [exact H|]. split; [exact S|].
  destruct (missing_wind_defaults_to_NA
              (Sample.serving Sample.calm) "London" _ H S)
    as (wd & wind & Hget & Hwind & Hs & Hd).
  change (Ok Sample.calm = Ok wd) in Hget. injection Hget as <-.
  change (Ok (JObj []) = Ok (JObj wind)) in Hwind. injection Hwind as <-.
  exact (conj (Hs eq_refl) (Hd eq_refl)).
Defined.

(** C7 on the temperature 21.456, shown as 21.46 degrees. *)
Lemma temperatures_have_two_decimals_witness :
  rendered (weather (Sample.serving Sample.clear_sky) (submit "London")) =
    Ok (Some (Sample.shown (Sample.serving Sample.clear_sky) "London"))
  /\ is_success (Sample.shown (Sample.serving Sample.clear_sky) "London")
  /\ PyDict.lookup "temperature"
       (Sample.shown (Sample.serving Sample.clear_sky) "London")
     = Some ("21.46" ++ PyStr.degree ++ "C")
  /\ exists text,
       PyDict.lookup "temperature"
         (Sample.shown (Sample.serving Sample.clear_sky) "London")
       = Some (text ++ PyStr.degree ++ "C")
       /\ two_decimals (JFloat (Sample.decimal 21456 3)) text
       /\ text = "21.46".
Proof.
  assert (H : rendered (weather (Sample.serving Sample.clear_sky)
                                (submit "London")) =
              Ok (Some (Sample.shown (Sample.serving Sample.clear_sky)
                                     "London")))
    by (vm_compute; reflexivity).
  assert (S : is_success
                (Sample.shown (Sample.serving Sample.clear_sky) "London"))
    by (vm_compute; reflexivity).
  split; [exact H|]. split; [exact S|]. split; [vm_compute; reflexivity|].
  destruct (temperatures_have_two_decimals
              (Sample.serving Sample.clear_sky) "London" _ H S)
    as (wd & main & temp & feels & tt & ft & Hget & Hm & Ht & _ & Lt & _
        & Tt & _ & Ex).
  change (Ok Sample.clear_sky = Ok wd) in Hget. injection Hget as <-.
  change (Ok (JObj Sample.mild) = Ok (JObj main)) in Hm.
  injection Hm as <-.
  change (Some (JFloat (Sample.decimal 21456 3)) = Some temp) in Ht.
  injection Ht as <-.
  exists tt. exact (conj Lt (conj Tt (Ex eq_refl))).
Defined.

Lemma no_point_in_inf (a : string) (c1 c2 : ascii) :
  a ++ String "." (String c1 (String c2 "")) <> "inf".
Proof.
  destruct a as [|x [|y [|z a]]]; simpl; try discriminate.
  intros H. injection H as _ _ _ H. destruct a; discriminate H.
Qed.

(** C7, counterexample.  The provider answers with the temperature
    [1e999], which parses to infinity, and with the integer
    [2 ^ 53 + 1] for the feels-like temperature: a success is rendered
    whose temperature is [inf], which is no number with two decimals,
    and whose feels-like temperature ends in 992, not in 993. *)
Lemma infinite_temperature_is_not_rounded :
  rendered (weather (Sample.serving Sample.unbounded) (submit "London")) =
    Ok (Some (Sample.shown (Sample.serving Sample.unbounded) "London"))
  /\ is_success (Sample.shown (Sample.serving Sample.unbounded) "London")
  /\ PyDict.lookup "temperature"
       (Sample.shown (Sample.serving Sample.unbounded) "London")
     = Some ("inf" ++ PyStr.degree ++ "C")
  /\ (forall s n,
        "inf" <> PyNum.sign s ++ PyStr.str_int (n / 100) ++ "."
                   ++ PyNum.digit (n / 10 mod 10)
                   ++ PyNum.digit (n mod 10))
  /\ PyDict.lookup "feels_like"
       (Sample.shown (Sample.serving Sample.unbounded) "London")
     = Some ("9007199254740992.00" ++ PyStr.degree ++ "C")
  /\ "9007199254740992.00" <> PyStr.str_int 9007199254740993 ++ ".00".
Proof.
  split; [vm_compute; reflexivity|]. split; [vm_compute; reflexivity|].
  split; [vm_compute; reflexivity|]. split.
  - intros s n H. symmetry in H.
    rewrite <- (append_assoc (PyNum.sign s)) in H.
    now apply no_point_in_inf in H.
  - split; [vm_compute; reflexivity|]. vm_compute. discriminate.
Qed.

(** C2 on the description "clear sky", shown as "Clear sky". *)
Lemma description_first_upper_rest_lower_witness :
  rendered (weather (Sample.serving Sample.clear_sky) (submit "London")) =
    Ok (Some (Sample.shown (Sample.serving Sample.clear_sky) "London"))
  /\ is_success (Sample.shown (Sample.serving Sample.clear_sky) "London")
  /\ PyDict.lookup "description"
       (Sample.shown (Sample.serving Sample.clear_sky) "London")
     = Some "Clear sky"
  /\ exists shown,
       PyDict.lookup "description"
         (Sample.shown (Sample.serving Sample.clear_sky) "London")
       = Some shown
       /\ first_upper_rest_lower "clear sky" shown.
Proof.
  assert (H : rendered (weather (Sample.serving Sample.clear_sky)
                                (submit "London")) =
              Ok (Some (Sample.shown (Sample.serving Sample.clear_sky)
                                     "London")))
    by (vm_compute; reflexivity).
  assert (S : is_success
                (Sample.shown (Sample.serving Sample.clear_sky) "London"))
    by (vm_compute; reflexivity).
  split; [exact H|]. split; [exact S|]. split; [vm_compute; reflexivity|].
  destruct (description_first_upper_rest_lower
              (Sample.serving Sample.clear_sky) "London" _ H S)
    as (wd & reports & report0 & desc & shown & Hget & Hr & Hr0 & Hd & L
        & F).
  change (Ok Sample.clear_sky = Ok wd) in Hget. injection Hget as <-.
  change (Ok (JArr [JObj [("description", JStr "clear sky")]]) = Ok reports)
    in Hr.
  injection Hr as <-.
  change (Ok (JObj [("description", JStr "clear sky")]) = Ok report0) in Hr0.
  injection Hr0 as <-.
  change (Ok (JStr "clear sky") = Ok (JStr desc)) in Hd.
  injection Hd as <-.
  exists shown. exact (conj L (F eq_refl)).
Defined.

(** C2, counterexample.  The description "clear SKY" is shown as
    "Clear sky": the characters after the first are not the ones
    received. *)
Lemma capitalize_lowers_the_rest :
  rendered (weather (Sample.serving Sample.shouting) (submit "London")) =
    Ok (Some (Sample.shown (Sample.serving Sample.shouting) "London"))
  /\ PyDict.lookup "description"
       (Sample.shown (Sample.serving Sample.shouting) "London")
     = Some "Clear sky"
  /\ PyDict.lookup "description"
       (Sample.shown (Sample.serving Sample.shouting) "London")
     <> Some (String (PyStr.upper_char "c") "lear SKY").
Proof.
  split; [vm_compute; reflexivity|].
  split; [vm_compute; reflexivity|].
  vm_compute. discriminate.
Qed.

(** * Further properties of the handler *)

(** ** Stripping as a decomposition *)

Lemma lstrip_split (s : string) :
  exists pre,
    s = pre ++ PyStr.lstrip s
    /\ all_space pre = true
    /\ starts_with_space (PyStr.lstrip s) = false.
Proof.
  induction s as [|c r (pre & Hs & Hp & Hh)]; simpl.
  - exists "". auto.
  - destruct (PyStr.isspace c) eqn:Hc.
    + exists (String c pre). simpl. rewrite Hc, Hp, <- Hs. auto.
    + exists "". simpl. auto.
Qed.

Lemma rstrip_split (s : string) :
  exists post,
    s = PyStr.rstrip s ++ post
    /\ all_space post = true
    /\ ends_with_space (PyStr.rstrip s) = false.
Proof.
  induction s as [|c r (post & Hs & Hp & He)]; simpl.
  - exists "". auto.
  - destruct (PyStr.rstrip r) as [|c' r'] eqn:E.
    + simpl in Hs. subst r. destruct (PyStr.isspace c) eqn:Hc.
      * exists (String c post). simpl. rewrite Hc, Hp. auto.
      * exists post. simpl. rewrite Hc. auto.
    + exists post. rewrite Hs. simpl. repeat split; auto.
Qed.

Lemma rstrip_head (s : string) :
  starts_with_space s = false -> starts_with_space (PyStr.rstrip s) = false.
Proof.
  destruct s as [|c r]; simpl; [reflexivity|]. intros Hc.
  destruct (PyStr.rstrip r); [rewrite Hc|]; simpl; auto.
Qed.

(** X7. [strip] removes a whitespace prefix and a whitespace suffix and
    nothing else: the text is the prefix, the stripped text and the
    suffix, and the stripped text neither starts nor ends with
    whitespace. *)
Theorem strip_decomposition (raw : string) :
  exists pre post,
    raw = pre ++ PyStr.strip raw ++ post
    /\ all_space pre = true
    /\ all_space post = true
    /\ starts_with_space (PyStr.strip raw) = false
    /\ ends_with_space (PyStr.strip raw) = false.
Proof.
  destruct (lstrip_split raw) as (pre & Hs & Hp & Hh).
  destruct (rstrip_split (PyStr.lstrip raw)) as (post & Hs' & Hp' & He).
  exists pre, post. unfold PyStr.strip. repeat split; auto.
  - now rewrite <- Hs', <- Hs.
  - now apply rstrip_head.
Qed.

(** ** Whitespace around the city *)

Lemma rstrip_all_space (s : string) :
  all_space s = true -> PyStr.rstrip s = "".
Proof.
  induction s as [|c r IH]; simpl; [reflexivity|].
  intros H. apply andb_prop in H as [Hc Hr].
  now rewrite (IH Hr), Hc.
Qed.

Lemma rstrip_app_space (s post : string) :
  all_space post = true -> PyStr.rstrip (s ++ post) = PyStr.rstrip s.
Proof.
  intros Hp. induction s as [|c r IH]; simpl.
  - now apply rstrip_all_space.
  - now rewrite IH.
Qed.

Lemma lstrip_app_space (pre s : string) :
  all_space pre = true -> PyStr.lstrip (pre ++ s) = PyStr.lstrip s.
Proof.
  induction pre as [|c r IH]; simpl; [reflexivity|].
  intros H. apply andb_prop in H as [Hc Hr]. rewrite Hc. now apply IH.
Qed.

Lemma strip_app_space (s post : string) :
  all_space post = true ->
  PyStr.rstrip (PyStr.lstrip (s ++ post)) = PyStr.rstrip (PyStr.lstrip s).
Proof.
  intros Hp. induction s as [|c r IH]; simpl.
  - now rewrite (lstrip_all_space post Hp).
  - destruct (PyStr.isspace c); [exact IH|].
    change (String c (r ++ post)) with (String c r ++ post).
    now apply rstrip_app_space.
Qed.

Lemma strip_surrounded (pre s post : string) :
  all_space pre = true -> all_space post = true ->
  PyStr.strip (pre ++ s ++ post) = PyStr.strip s.
Proof.
  intros Hpre Hpost. unfold PyStr.strip.
  rewrite (lstrip_app_space pre (s ++ post) Hpre).
  now apply strip_app_space.
Qed.

(** X8. Whitespace before and after the submitted city changes nothing:
    the same request is sent, if any, and the same dictionary is
    rendered or the same exception raised. *)
Theorem surrounding_whitespace_is_ignored
    (w : world) (pre city post : string) :
  all_space pre = true ->
  all_space post = true ->
  weather w (submit (pre ++ city ++ post)) = weather w (submit city).
Proof.
  intros Hpre Hpost. rewrite !weather_submit.
  now rewrite (strip_surrounded pre city post Hpre Hpost).
Qed.

Lemma surrounding_whitespace_is_ignored_witness :
  all_space "  " = true
  /\ all_space (String "009" (String "010" "")) = true
  /\ weather (Sample.serving Sample.clear_sky)
             (submit ("  " ++ "New York" ++ String "009" (String "010" "")))
     = weather (Sample.serving Sample.clear_sky) (submit "New York").
Proof.
  split; [reflexivity|]. split; [reflexivity|].
  apply (surrounding_whitespace_is_ignored
           (Sample.serving Sample.clear_sky) "  " "New York"
           (String "009" (String "010" ""))); reflexivity.
Defined.

(** ** Which requests reach the provider *)

Lemma weather_post (w : world) (req : request) (raw : string) :
  method req = "POST" ->
  PyDict.lookup "city" (form req) = Some raw ->
  weather w req = weather w (submit raw).
Proof.
  intros Hm Hl. unfold weather, weather_prog, form_getitem, submit.
  cbn [method form]. rewrite Hm, Hl. reflexivity.
Qed.

Lemma weather_not_post (w : world) (req : request) :
  method req <> "POST" ->
  weather w req = {| requested := []; rendered := Ok None |}.
Proof.
  intros Hm. unfold weather, weather_prog.
  destruct (String.eqb_spec (method req) "POST"); [contradiction|].
  reflexivity.
Qed.

Lemma weather_no_field (w : world) (req : request) :
  method req = "POST" ->
  PyDict.lookup "city" (form req) = None ->
  weather w req =
    {| requested := []; rendered := Raise (BadRequestKeyError "city") |}.
Proof.
  intros Hm Hl. unfold weather, weather_prog, form_getitem.
  rewrite Hm, Hl. reflexivity.
Qed.

Lemma valid_city_dec (city : string) :
  valid_city city \/ (city = "" \/ (100 < length city)%nat).
Proof.
  destruct city as [|c r]; [right; left; reflexivity|].
  destruct (Nat.ltb_spec 100 (length (String c r))) as [H|H].
  - right. right. exact H.
  - left. split; [discriminate | exact H].
Qed.

Lemma weather_invalid (w : world) (raw : string) :
  PyStr.strip raw = "" \/ (100 < length (PyStr.strip raw))%nat ->
  requested (weather w (submit raw)) = []
  /\ exists i, rendered (weather w (submit raw)) = Ok (Some i)
               /\ (i = empty_input /\ PyStr.strip raw = ""
                   \/ i = input_too_long
                      /\ (100 < length (PyStr.strip raw))%nat).
Proof.
  intros H. rewrite weather_submit. cbv zeta.
  destruct (PyStr.strip raw) as [|c r] eqn:E; cbn [PyStr.truthy negb].
  - split; [reflexivity|]. exists empty_input. auto.
  - destruct H as [H|H]; [discriminate|].
    destruct (Nat.ltb_spec 100 (length (String c r))) as [_|Hle]; [|lia].
    split; [reflexivity|]. exists input_too_long. auto.
Qed.

Lemma weather_prog_post (w : world) (req : request) (raw : string) :
  method req = "POST" ->
  PyDict.lookup "city" (form req) = Some raw ->
  weather_prog w req = weather_prog w (submit raw).
Proof.
  intros Hm Hl. unfold weather_prog, form_getitem, submit.
  cbn [method form]. rewrite Hm, Hl. reflexivity.
Qed.

Lemma weather_prog_invalid (w : world) (raw : string) :
  PyStr.strip raw = "" \/ (100 < length (PyStr.strip raw))%nat ->
  exists outcome, weather_prog w (submit raw) = Done outcome.
Proof.
  intros H. unfold weather_prog, submit, form_getitem.
  cbn [method form String.eqb Ascii.eqb Bool.eqb PyDict.lookup]. cbv zeta.
  destruct (PyStr.strip raw) as [|c r] eqn:E; cbn [PyStr.truthy negb].
  - eexists. reflexivity.
  - destruct H as [H|H]; [discriminate|].
    destruct (Nat.ltb_spec 100 (length (String c r))) as [_|Hle]; [|lia].
    eexists. reflexivity.
Qed.

(** X1. The program of the handler does not depend on the HTTP client
    of the world, which it reaches through its calls only, and it calls
    the provider at most once and only for a POST whose [city] field
    passes both checks: then the program is one call with the URL of
    that city followed by a step that ends, and the log of the run is
    that URL; in every other case the program ends without a call and
    the log is empty. *)
Theorem provider_called_only_when_valid (w : world) (req : request) :
  (forall get, weather_prog (with_client get w) req = weather_prog w req)
  /\ (((exists outcome, weather_prog w req = Done outcome)
       /\ requested (weather w req) = []
       /\ ~ (method req = "POST"
             /\ exists raw, PyDict.lookup "city" (form req) = Some raw
                            /\ valid_city (PyStr.strip raw)))
      \/ (exists raw k,
            method req = "POST"
            /\ PyDict.lookup "city" (form req) = Some raw
            /\ valid_city (PyStr.strip raw)
            /\ weather_prog w req = Get (base_url w (PyStr.strip raw)) k
            /\ (forall response, exists outcome, k response = Done outcome)
            /\ requested (weather w req) = [base_url w (PyStr.strip raw)])).
Proof.
  split; [intros get; destruct w; reflexivity|].
  destruct (String.eqb_spec (method req) "POST") as [Hm|Hm].
  - destruct (PyDict.lookup "city" (form req)) as [raw|] eqn:Hl.
    + rewrite (weather_post w req raw Hm Hl), (weather_prog_post w req raw Hm Hl).
      destruct (valid_city_dec (PyStr.strip raw)) as [Hv|Hi].
      * right. destruct (weather_prog_valid w raw Hv) as (k & Hk & Hd).
        exists raw, k. rewrite (weather_valid w raw Hv). auto 7.
      * left. split; [apply (weather_prog_invalid w raw Hi)|].
        split; [apply (weather_invalid w raw Hi)|].
        intros (_ & raw' & Hr & [Hne Hlen]). injection Hr as <-.
        destruct Hi as [Hi|Hi]; [contradiction | lia].
    + left. rewrite (weather_no_field w req Hm Hl).
      split.
      { unfold weather_prog, form_getitem. rewrite Hm, Hl.
        eexists. reflexivity. }
      split; [reflexivity|]. intros (_ & raw & Hr & _). discriminate.
  - left. rewrite (weather_not_post w req Hm).
    split.
    { unfold weather_prog.
      destruct (String.eqb_spec (method req) "POST"); [contradiction|].
      eexists. reflexivity. }
    split; [reflexivity|]. intros [Hp _]. contradiction.
Qed.

(** X2. The bare form, with no [weather_info] at all, is rendered
    exactly for the requests whose method is not POST. *)
Theorem bare_form_iff_not_post (w : world) (req : request) :
  rendered (weather w req) = Ok None <-> method req <> "POST".
Proof.
  split.
  - intros H Hm.
    destruct (PyDict.lookup "city" (form req)) as [raw|] eqn:Hl.
    + rewrite (weather_post w req raw Hm Hl) in H.
      apply weather_rendered in H as (i & Hi & _). discriminate.
    + rewrite (weather_no_field w req Hm Hl) in H. discriminate.
  - intros Hm. now rewrite (weather_not_post w req Hm).
Qed.

(** X3. An exception leaves the handler in two situations only: the
    POST has no [city] field, which raises before anything is
    requested, or the city is valid, the provider has been called and
    the body of the [try] raised something outside the [requests]
    hierarchy.  The two validation checks never raise. *)
Theorem escaped_exception_origin (w : world) (req : request) (e : exn) :
  rendered (weather w req) = Raise e ->
  (method req = "POST"
   /\ PyDict.lookup "city" (form req) = None
   /\ e = BadRequestKeyError "city"
   /\ requested (weather w req) = [])
  \/ (exists raw,
        method req = "POST"
        /\ PyDict.lookup "city" (form req) = Some raw
        /\ valid_city (PyStr.strip raw)
        /\ requested (weather w req) = [base_url w (PyStr.strip raw)]
        /\ fetch w (base_url w (PyStr.strip raw)) = Raise e
        /\ is_RequestException e = false).
Proof.
  intros H.
  destruct (String.eqb_spec (method req) "POST") as [Hm|Hm].
  - destruct (PyDict.lookup "city" (form req)) as [raw|] eqn:Hl.
    + right. exists raw. rewrite (weather_post w req raw Hm Hl) in *.
      destruct (valid_city_dec (PyStr.strip raw)) as [Hv|Hi].
      * rewrite (weather_valid w raw Hv) in *. cbn [rendered requested] in *.
        destruct (try_except_RequestException
                    (fetch w (base_url w (PyStr.strip raw))) transport_error)
          as [i|e'] eqn:E; cbn [bind] in H; [discriminate|].
        injection H as ->. apply try_except_escapes in E as [E1 E2].
        repeat split; auto; apply Hv.
      * destruct (weather_invalid w raw Hi) as (_ & i & Hr & _).
        rewrite Hr in H. discriminate.
    + left. rewrite (weather_no_field w req Hm Hl) in *.
      cbn [rendered] in H. injection H as <-. auto.
  - rewrite (weather_not_post w req Hm) in H. discriminate.
Qed.

Lemma escaped_exception_origin_witness :
  rendered (weather (Sample.serving Sample.clear_sky)
                    {| method := "POST"; form := [("town", "London")] |})
    = Raise (BadRequestKeyError "city")
  /\ requested (weather (Sample.serving Sample.clear_sky)
                        {| method := "POST"; form := [("town", "London")] |})
     = [].
Proof.
  split; [reflexivity|].
  destruct (escaped_exception_origin
              (Sample.serving Sample.clear_sky)
              {| method := "POST"; form := [("town", "London")] |}
              (BadRequestKeyError "city") eq_refl)
    as [(_ & _ & _ & H)|(raw & _ & H & _)]; [exact H | discriminate H].
Defined.

(** ** The error dictionaries *)

Lemma fetch_ok_inv (w : world) (url : string) (i : info) :
  fetch w url = Ok i ->
  exists weather_data cod,
    requests_get w url = Ok weather_data
    /\ PyObj.get weather_data "cod" JNull = Ok cod
    /\ (PyNum.eq_200 cod = false /\ i = city_not_found
        \/ PyNum.eq_200 cod = true /\ weather_found w weather_data = Ok i).
Proof.
  rewrite fetch_eq. intros H.
  destruct (requests_get w url) as [weather_data|e] eqn:G; [|discriminate].
  cbn [bind] in H.
  destruct (PyObj.get weather_data "cod" JNull) as [cod|e] eqn:C;
    [|discriminate].
  cbn [bind] in H. exists weather_data, cod.
  split; [reflexivity|]. split; [exact C|].
  destruct (PyNum.eq_200 cod).
  - right. auto.
  - injection H as <-. left. auto.
Qed.

(** What a valid city renders, by the outcome of the [try] body. *)
Lemma weather_valid_rendered (w : world) (raw : string) (i : info) :
  valid_city (PyStr.strip raw) ->
  rendered (weather w (submit raw)) = Ok (Some i) ->
  (exists text,
     fetch w (base_url w (PyStr.strip raw)) = Raise (RequestException text)
     /\ i = transport_error text)
  \/ (exists weather_data cod,
        requests_get w (base_url w (PyStr.strip raw)) = Ok weather_data
        /\ PyObj.get weather_data "cod" JNull = Ok cod
        /\ (PyNum.eq_200 cod = false /\ i = city_not_found
            \/ PyNum.eq_200 cod = true
               /\ weather_found w weather_data = Ok i)).
Proof.
  intros Hv. rewrite (weather_valid w raw Hv). cbn [rendered].
  unfold try_except_RequestException.
  destruct (fetch w (base_url w (PyStr.strip raw))) as [i'|e] eqn:F.
  - cbn [bind]. intros H. injection H as <-. right.
    now apply fetch_ok_inv.
  - destruct e; cbn [bind]; try discriminate.
    intros H. injection H as <-. left. now exists text.
Qed.

(** X4. The message "Please enter a valid city name." is rendered
    exactly for the submissions made of whitespace only. *)
Theorem empty_input_iff_whitespace (w : world) (raw : string) :
  rendered (weather w (submit raw)) = Ok (Some empty_input)
  <-> all_space raw = true.
Proof.
  split.
  - intros H.
    destruct (valid_city_dec (PyStr.strip raw)) as [Hv|Hi].
    + apply (weather_valid_rendered w raw _ Hv) in H
        as [(text & _ & E)|(wd & cod & _ & _ & [[_ E]|[_ F]])].
      * discriminate E.
      * discriminate E.
      * apply weather_found_keys in F. discriminate F.
    + destruct (weather_invalid w raw Hi) as (_ & i & Hr & [[E S]|[E _]]).
      * now apply strip_empty.
      * rewrite Hr in H. injection H as ->. discriminate E.
  - intros H. rewrite weather_submit, (strip_all_space raw H). reflexivity.
Qed.

(** X5. The message "City name is too long. Please enter a valid city
    name." is rendered exactly for the submissions whose stripped text
    has more than 100 characters. *)
Theorem too_long_iff_over_100 (w : world) (raw : string) :
  rendered (weather w (submit raw)) = Ok (Some input_too_long)
  <-> (100 < length (PyStr.strip raw))%nat.
Proof.
  split.
  - intros H.
    destruct (valid_city_dec (PyStr.strip raw)) as [Hv|Hi].
    + apply (weather_valid_rendered w raw _ Hv) in H
        as [(text & _ & E)|(wd & cod & _ & _ & [[_ E]|[_ F]])].
      * discriminate E.
      * discriminate E.
      * apply weather_found_keys in F. discriminate F.
    + destruct (weather_invalid w raw Hi) as (_ & i & Hr & [[E _]|[_ L]]).
      * rewrite Hr in H. injection H as ->. discriminate E.
      * exact L.
  - intros H. now destruct (weather_invalid w raw (or_intror H))
      as (_ & i & Hr & [[_ S]|[-> _]]); [rewrite S in H; simpl in H; lia|].
Qed.

(** X6. Every error dictionary that the handler renders is one of four,
    each with its own cause: the empty submission, the submission that
    is too long, the answer whose [cod] is not 200, and the exception of
    the [requests] hierarchy, whose text ends the message. *)
Theorem failure_taxonomy (w : world) (raw : string) (i : info) :
  rendered (weather w (submit raw)) = Ok (Some i) ->
  is_failure i ->
  (i = empty_input /\ all_space raw = true)
  \/ (i = input_too_long /\ (100 < length (PyStr.strip raw))%nat)
  \/ (i = city_not_found
      /\ valid_city (PyStr.strip raw)
      /\ exists weather_data cod,
           requests_get w (base_url w (PyStr.strip raw)) = Ok weather_data
           /\ PyObj.get weather_data "cod" JNull = Ok cod
           /\ PyNum.eq_200 cod = false)
  \/ (exists text,
        i = transport_error text
        /\ valid_city (PyStr.strip raw)
        /\ fetch w (base_url w (PyStr.strip raw))
           = Raise (RequestException text)).
Proof.
  intros H F.
  destruct (valid_city_dec (PyStr.strip raw)) as [Hv|Hi].
  - apply (weather_valid_rendered w raw _ Hv) in H
      as [(text & E & ->)|(wd & cod & G & C & [[N ->]|[_ Wf]])].
    + right. right. right. exists text. auto.
    + right. right. left. split; [reflexivity|]. split; [exact Hv|].
      exists wd, cod. auto.
    + apply weather_found_keys in Wf.
      now apply failure_not_success in F.
  - destruct (weather_invalid w raw Hi) as (_ & i' & Hr & C).
    rewrite Hr in H. injection H as ->.
    destruct C as [[-> S]|[-> L]].
    + left. split; [reflexivity | now apply strip_empty].
    + right. left. auto.
Qed.

Lemma failure_taxonomy_witness :
  rendered (weather Sample.offline (submit "London"))
    = Ok (Some (transport_error "timed out"))
  /\ is_failure (transport_error "timed out")
  /\ exists text,
       transport_error "timed out" = transport_error text
       /\ fetch Sample.offline (base_url Sample.offline (PyStr.strip "London"))
          = Raise (RequestException text).
Proof.
  assert (F : is_failure (transport_error "timed out")) by (now eexists).
  split; [reflexivity|]. split; [exact F|].
  destruct (failure_taxonomy Sample.offline "London"
              (transport_error "timed out") eq_refl F)
    as [[E _]|[[E _]|[[E _]|(text & E & _ & G)]]]; try discriminate E.
  exists text. auto.
Defined.

(** ** The zones that exist *)

Lemma int_str_str_int (z : Z) : int_str (PyStr.str_int z) = Some z.
Proof.
  unfold int_str, PyStr.str_int. rewrite NilZero.isi.
  - cbn [option_map]. now rewrite DecimalZ.of_to.
  - destruct z; cbn; try discriminate.
    intros H. injection H as H. now apply DecimalPos.Unsigned.to_uint_nonnil in H.
  - destruct z; cbn; try discriminate.
    intros H. injection H as H. now apply DecimalPos.Unsigned.to_uint_nonnil in H.
Qed.

Lemma lookup_In {V : Type} (k : string) (d : list (string * V)) (v : V) :
  PyDict.lookup k d = Some v -> In (k, v) d.
Proof.
  induction d as [|[k' v'] d IH]; cbn; [discriminate|].
  destruct (String.eqb_spec k k') as [->|_].
  - intros H. injection H as ->. now left.
  - intros H. right. now apply IH.
Qed.

(** A name built by line 56 is in the database only for an hour between
    -14 and 12. *)
Lemma etc_zone_hour_bounds (b : bool) (h : Z) (tz : Pytz.tzinfo) :
  Pytz.timezone ("Etc/GMT" ++ (if b then "+" else "") ++ PyStr.str_int h)
    = Ok tz ->
  -14 <= h <= 12.
Proof.
  unfold Pytz.timezone.
  destruct (PyDict.lookup _ Pytz.etc_zones) as [u|] eqn:L; [|discriminate].
  intros _. apply lookup_In in L. cbn [In Pytz.etc_zones] in L.
  pose (skip := fun s : string =>
          match s with
          | String _ (String _ (String _ (String _ (String _ (String _
              (String _ r)))))) => r
          | _ => ""
          end).
  repeat destruct L as [L|L]; try contradiction;
    apply (f_equal fst) in L; cbn [fst] in L; rename L into E;
    apply (f_equal skip) in E;
    destruct b; cbv beta iota delta [skip append] in E;
    first [ discriminate E | injection E as E | idtac ];
    apply (f_equal int_str) in E; rewrite int_str_str_int in E;
    vm_compute in E;
    first [ discriminate E | injection E as <-; lia ].
Qed.

Lemma local_timezone_ok (timezone_offset : Z) :
  -14 <= hour_offset timezone_offset <= 12 ->
  local_timezone (JInt timezone_offset) = Ok (zone_of_offset timezone_offset).
Proof.
  intros Hh. unfold local_timezone, zone_of_offset, zone_name.
  cbn [PyNum.as_number].
  pose proof (Z.div_mod (- timezone_offset) 3600 ltac:(lia)) as Hdm.
  pose proof (Z.mod_pos_bound (- timezone_offset) 3600 ltac:(lia)) as Hm.
  apply etc_zone_of_hour; [exact Hh | |]; unfold hour_offset in *;
    intros Hs; destruct (Z.ltb_spec timezone_offset 0); auto; lia.
Qed.

Lemma hour_offset_range (timezone_offset : Z) :
  -14 <= hour_offset timezone_offset <= 12
  <-> -46800 < timezone_offset <= 50400.
Proof.
  unfold hour_offset.
  pose proof (Z.div_mod (- timezone_offset) 3600 ltac:(lia)) as Hdm.
  pose proof (Z.mod_pos_bound (- timezone_offset) 3600 ltac:(lia)) as Hm.
  lia.
Qed.

(** X9. The zone lookup of line 56 succeeds exactly for the offsets
    above -13 hours and up to +14 hours, and raises
    [UnknownTimeZoneError] for every other integer offset.  The zone
    found is never behind the offset received and less than one hour
    ahead of it; for a whole number of hours it is the offset itself. *)
Theorem zone_exists_iff_offset_in_range (timezone_offset : Z) :
  (-46800 < timezone_offset <= 50400 ->
   local_timezone (JInt timezone_offset)
     = Ok (zone_of_offset timezone_offset))
  /\ (~ (-46800 < timezone_offset <= 50400) ->
      local_timezone (JInt timezone_offset) = Raise UnknownTimeZoneError)
  /\ 0 <= 3600 * Pytz.utcoffset_hours (zone_of_offset timezone_offset)
            - timezone_offset < 3600
  /\ (timezone_offset mod 3600 = 0 ->
      3600 * Pytz.utcoffset_hours (zone_of_offset timezone_offset)
        = timezone_offset).
Proof.
  split; [|split; [|split]].
  - intros H. apply local_timezone_ok. now apply hour_offset_range.
  - intros H. unfold local_timezone, zone_name. cbn [PyNum.as_number].
    destruct (Pytz.timezone _) as [tz|e] eqn:E.
    + apply etc_zone_hour_bounds in E. now apply hour_offset_range in E.
    + unfold Pytz.timezone in E.
      destruct (PyDict.lookup _ Pytz.etc_zones); [discriminate|].
      now injection E as <-.
  - cbn [zone_of_offset Pytz.utcoffset_hours]. unfold hour_offset.
    pose proof (Z.div_mod (- timezone_offset) 3600 ltac:(lia)).
    pose proof (Z.mod_pos_bound (- timezone_offset) 3600 ltac:(lia)).
    lia.
  - intros Hmod. cbn [zone_of_offset Pytz.utcoffset_hours].
    unfold hour_offset.
    pose proof (Z.div_mod (- timezone_offset) 3600 ltac:(lia)).
    pose proof (Z.mod_pos_bound (- timezone_offset) 3600 ltac:(lia)).
    pose proof (Z.div_mod timezone_offset 3600 ltac:(lia)).
    lia.
Qed.

(** ** The complete answer *)

Lemma format_2f_finite_value (x : json) (f : spec_float) :
  float_value x = Some f ->
  is_finite_SF f = true ->
  PyNum.format_2f x = Ok (PyNum.format_float_2f f).
Proof.
  unfold float_value, PyNum.format_2f.
  destruct x; cbn [PyNum.as_number]; try discriminate;
    intros H; injection H as <-; try reflexivity;
    destruct (PyNum.float_of_int _); try reflexivity; discriminate.
Qed.

(** X11. When the answer of the provider is an object with [cod] 200
    that holds every field the handler reads, with string name, country
    and description (a description whose capitalized form stays below
    256), finite numeric temperatures, an integer timezone offset that
    names a zone and timestamps that the clock can format, the handler
    renders the success dictionary, whose eleven values are the ones
    written here. *)
Theorem complete_answer_renders_success
    (w : world) (raw : string) (fields sys main report0 wind : list (string * json))
    (more : list json) (cod temp feels humidity sunrise sunset : json)
    (name country desc sunrise_time sunset_time : string)
    (temp_value feels_value : spec_float) (timezone_offset : Z)
    (sunrise_number sunset_number : PyNum.number) :
  valid_city (PyStr.strip raw) ->
  requests_get w (base_url w (PyStr.strip raw)) = Ok (JObj fields) ->
  PyDict.lookup "cod" fields = Some cod ->
  PyNum.eq_200 cod = true ->
  PyDict.lookup "name" fields = Some (JStr name) ->
  PyDict.lookup "sys" fields = Some (JObj sys) ->
  PyDict.lookup "country" sys = Some (JStr country) ->
  PyDict.lookup "main" fields = Some (JObj main) ->
  PyDict.lookup "temp" main = Some temp ->
  float_value temp = Some temp_value ->
  is_finite_SF temp_value = true ->
  PyDict.lookup "feels_like" main = Some feels ->
  float_value feels = Some feels_value ->
  is_finite_SF feels_value = true ->
  PyDict.lookup "humidity" main = Some humidity ->
  PyDict.lookup "weather" fields = Some (JArr (JObj report0 :: more)) ->
  PyDict.lookup "description" report0 = Some (JStr desc) ->
  PyStr.capitalizable desc = true ->
  PyDict.lookup "wind" fields = Some (JObj wind) ->
  PyDict.lookup "timezone" fields = Some (JInt timezone_offset) ->
  -46800 < timezone_offset <= 50400 ->
  PyDict.lookup "sunrise" sys = Some sunrise ->
  PyNum.as_number sunrise = Some sunrise_number ->
  fromtimestamp_strftime w sunrise_number (zone_of_offset timezone_offset)
    "%H:%M:%S" = Ok sunrise_time ->
  PyDict.lookup "sunset" sys = Some sunset ->
  PyNum.as_number sunset = Some sunset_number ->
  fromtimestamp_strftime w sunset_number (zone_of_offset timezone_offset)
    "%H:%M:%S" = Ok sunset_time ->
  weather w (submit raw) =
    {| requested := [base_url w (PyStr.strip raw)];
       rendered :=
         Ok (Some
           [ ("city", name ++ ", " ++ country);
             ("day", now_strftime w (zone_of_offset timezone_offset) "%A");
             ("date",
              now_strftime w (zone_of_offset timezone_offset) "%d %B %Y");
             ("temperature",
              PyNum.format_float_2f temp_value ++ PyStr.degree ++ "C");
             ("feels_like",
              PyNum.format_float_2f feels_value ++ PyStr.degree ++ "C");
             ("humidity", PyNum.format_str (repr w) humidity ++ "%");
             ("description", PyStr.capitalize desc);
             ("wind_speed",
              PyNum.format_str (repr w)
                (wind_get wind "speed") ++ " m/s");
             ("wind_deg",
              PyNum.format_str (repr w)
                (wind_get wind "deg")
                ++ PyStr.degree);
             ("sunrise", sunrise_time);
             ("sunset", sunset_time) ]) |}.
Proof.
  intros Hv Hget Hcod H200 Hname Hsys Hcountry Hmain Htemp Htv Htf
    Hfeels Hfv Hff Hhum Hweather Hdesc _ Hwind Htz Hrange
    Hsunrise Hsrn Hsrt Hsunset Hssn Hsst.
  rewrite (weather_valid w raw Hv). f_equal.
  rewrite fetch_eq, Hget. cbn [bind PyObj.get]. rewrite Hcod.
  cbn [bind]. rewrite H200.
  unfold weather_found, local_clock, wind_get.
  cbn [PyObj.getitem PyObj.get PyObj.getitem0].
  rewrite Hname, Hsys, Hmain, Hweather, Hwind, Htz.
  cbn [bind PyObj.getitem PyObj.get PyObj.getitem0].
  rewrite Hcountry, Htemp, Hfeels, Hhum, Hdesc, Hsunrise, Hsunset.
  cbn [bind].
  rewrite (local_timezone_ok timezone_offset)
    by now apply hour_offset_range.
  cbn [bind]. rewrite Hsrn, Hsrt, Hssn, Hsst. cbn [bind].
  rewrite (format_2f_finite_value temp temp_value Htv Htf).
  rewrite (format_2f_finite_value feels feels_value Hfv Hff).
  cbn [bind PyObj.capitalize PyNum.format_str try_except_RequestException].
  destruct (PyDict.lookup "speed" wind), (PyDict.lookup "deg" wind);
    reflexivity.
Qed.

Lemma complete_answer_renders_success_witness :
  valid_city (PyStr.strip "London")
  /\ PyStr.capitalizable "clear sky" = true
  /\ -46800 < -18000 <= 50400
  /\ is_finite_SF (Sample.decimal 21456 3) = true
  /\ is_finite_SF (Sample.decimal (-5) 1) = true
  /\ weather (Sample.serving Sample.clear_sky) (submit "London") =
       {| requested :=
            [ "http://api.openweathermap.org/data/2.5/weather?appid=KEY&q=London&units=metric" ];
          rendered :=
            Ok (Some
              [ ("city", "London, GB"); ("day", "Wednesday");
                ("date", "04 November 2026");
                ("temperature", "21.46" ++ PyStr.degree ++ "C");
                ("feels_like", "-0.50" ++ PyStr.degree ++ "C");
                ("humidity", "60%"); ("description", "Clear sky");
                ("wind_speed", "4 m/s"); ("wind_deg", "250" ++ PyStr.degree);
                ("sunrise", "17:13:20"); ("sunset", "01:33:20") ]) |}.
Proof.
  assert (Hv : valid_city (PyStr.strip "London")) by valid_by_evaluation.
  assert (Hr : -46800 < -18000 <= 50400) by lia.
  assert (Ht : is_finite_SF (Sample.decimal 21456 3) = true)
    by (vm_compute; reflexivity).
  assert (Hf : is_finite_SF (Sample.decimal (-5) 1) = true)
    by (vm_compute; reflexivity).
  split; [exact Hv|]. split; [reflexivity|]. split; [exact Hr|].
  split; [exact Ht|]. split; [exact Hf|].
  rewrite (complete_answer_renders_success
             (Sample.serving Sample.clear_sky) "London"
             (Sample.report_fields (JInt 200) Sample.mild (JStr "clear sky")
                Sample.breeze (JInt (-18000)))
             [ ("country", JStr "GB"); ("sunrise", JInt 1700000000);
               ("sunset", JInt 1700030000) ]
             Sample.mild [ ("description", JStr "clear sky") ]
             [ ("speed", JInt 4); ("deg", JInt 250) ] []
             (JInt 200) (JFloat (Sample.decimal 21456 3))
             (JFloat (Sample.decimal (-5) 1)) (JInt 60)
             (JInt 1700000000) (JInt 1700030000)
             "London" "GB" "clear sky" "17:13:20" "01:33:20"
             (Sample.decimal 21456 3) (Sample.decimal (-5) 1) (-18000)
             (PyNum.NInt 1700000000) (PyNum.NInt 1700030000)
             Hv eq_refl eq_refl eq_refl eq_refl eq_refl eq_refl eq_refl
             eq_refl eq_refl Ht eq_refl eq_refl Hf eq_refl eq_refl eq_refl
             eq_refl eq_refl eq_refl Hr eq_refl eq_refl eq_refl eq_refl
             eq_refl eq_refl).
  vm_compute. reflexivity.
Defined.

(** Inversion of the reads of a successful run. *)
Ltac inv_reads :=
  repeat match goal with
    | H : PyObj.getitem (JStr _) _ = Ok _ |- _ => discriminate H
    | H : PyObj.getitem ?o _ = Ok _ |- _ =>
        is_var o; destruct o; try discriminate H
    | H : PyObj.get ?o _ _ = Ok _ |- _ =>
        is_var o; destruct o; try discriminate H
    | H : PyObj.getitem (JObj ?f) ?k = Ok ?v |- _ =>
        cbn [PyObj.getitem] in H;
        destruct (PyDict.lookup k f) eqn:?;
        [injection H as ?; subst | discriminate H]
    end.

Lemma weather_found_reads (w : world) (fields : list (string * json))
    (i : info) :
  weather_found w (JObj fields) = Ok i ->
  exists name sys country sunrise sunset main temp feels humidity
         report0 more desc wind timezone tz temp_value feels_value,
    PyDict.lookup "name" fields = Some name
    /\ PyDict.lookup "sys" fields = Some (JObj sys)
    /\ PyDict.lookup "country" sys = Some country
    /\ PyDict.lookup "sunrise" sys = Some sunrise
    /\ PyDict.lookup "sunset" sys = Some sunset
    /\ PyNum.as_number sunrise <> None
    /\ PyNum.as_number sunset <> None
    /\ PyDict.lookup "main" fields = Some (JObj main)
    /\ PyDict.lookup "temp" main = Some temp
    /\ PyDict.lookup "feels_like" main = Some feels
    /\ PyDict.lookup "humidity" main = Some humidity
    /\ float_value temp = Some temp_value
    /\ float_value feels = Some feels_value
    /\ PyDict.lookup "weather" fields = Some (JArr (JObj report0 :: more))
    /\ PyDict.lookup "description" report0 = Some (JStr desc)
    /\ PyDict.lookup "wind" fields = Some (JObj wind)
    /\ PyDict.lookup "timezone" fields = Some timezone
    /\ local_timezone timezone = Ok tz.
Proof.
  unfold weather_found. intros H. bind_inv H. clear H.
  repeat match goal with
    | H : local_clock _ ?ts _ = Ok _ |- _ =>
        assert (PyNum.as_number ts <> None)
          by (unfold local_clock in H;
              destruct (PyNum.as_number ts); [discriminate | discriminate H]);
        clear H
    | H : PyNum.format_2f _ = Ok _ |- _ =>
        apply format_2f_float_value in H as (? & ? & _)
    | H : PyObj.capitalize ?d = Ok _ |- _ =>
        destruct d; try discriminate H; clear H
    | H : PyObj.getitem0 ?r = Ok _ |- _ =>
        destruct r as [| | | |[|? ?]|[|? ?]|]; try discriminate H;
        cbn [PyObj.getitem0] in H; injection H as ?; subst
    end.
  all: inv_reads.
  do 17 eexists; repeat split; first [eassumption | reflexivity].
Qed.

(** X10. A success is rendered only for a complete answer: the city is
    valid and the provider returned an object with [cod] 200, a name,
    a [sys] block with country and numeric sunrise and sunset, a [main]
    block with numeric temperatures and a humidity, a non-empty list of
    weather reports whose first one has a string description, a wind
    block, and a timezone offset that names a zone. *)
Theorem success_requires_complete_answer
    (w : world) (raw : string) (i : info) :
  rendered (weather w (submit raw)) = Ok (Some i) ->
  is_success i ->
  valid_city (PyStr.strip raw)
  /\ exists fields cod,
       requests_get w (base_url w (PyStr.strip raw)) = Ok (JObj fields)
       /\ PyDict.lookup "cod" fields = Some cod
       /\ PyNum.eq_200 cod = true
       /\ exists name sys country sunrise sunset main temp feels humidity
                 report0 more desc wind timezone tz temp_value feels_value,
            PyDict.lookup "name" fields = Some name
            /\ PyDict.lookup "sys" fields = Some (JObj sys)
            /\ PyDict.lookup "country" sys = Some country
            /\ PyDict.lookup "sunrise" sys = Some sunrise
            /\ PyDict.lookup "sunset" sys = Some sunset
            /\ PyNum.as_number sunrise <> None
            /\ PyNum.as_number sunset <> None
            /\ PyDict.lookup "main" fields = Some (JObj main)
            /\ PyDict.lookup "temp" main = Some temp
            /\ PyDict.lookup "feels_like" main = Some feels
            /\ PyDict.lookup "humidity" main = Some humidity
            /\ float_value temp = Some temp_value
            /\ float_value feels = Some feels_value
            /\ PyDict.lookup "weather" fields
               = Some (JArr (JObj report0 :: more))
            /\ PyDict.lookup "description" report0 = Some (JStr desc)
            /\ PyDict.lookup "wind" fields = Some (JObj wind)
            /\ PyDict.lookup "timezone" fields = Some timezone
            /\ local_timezone timezone = Ok tz.
Proof.
  intros H S.
  destruct (valid_city_dec (PyStr.strip raw)) as [Hv|Hi].
  - split; [exact Hv|].
    apply (weather_valid_rendered w raw i Hv) in H
      as [(text & _ & ->)|(wd & cod & G & C & [[_ ->]|[E F]])].
    + exfalso. apply (failure_not_success (transport_error text));
        [now eexists | exact S].
    + exfalso. apply (failure_not_success city_not_found);
        [now eexists | exact S].
    + destruct wd as [| | | | | |fields]; try discriminate C.
      exists fields, cod. split; [exact G|].
      cbn [PyObj.get] in C.
      destruct (PyDict.lookup "cod" fields) as [c|];
        injection C as <-; [|discriminate E].
      split; [reflexivity|]. split; [exact E|].
      now apply (weather_found_reads w fields i).
  - exfalso. destruct (weather_invalid w raw Hi) as (_ & i' & Hr & C).
    rewrite Hr in H. injection H as ->.
    destruct C as [[-> _]|[-> _]]; discriminate S.
Qed.

Lemma success_requires_complete_answer_witness :
  rendered (weather (Sample.serving Sample.clear_sky) (submit " London ")) =
    Ok (Some (Sample.shown (Sample.serving Sample.clear_sky) " London "))
  /\ is_success (Sample.shown (Sample.serving Sample.clear_sky) " London ")
  /\ valid_city (PyStr.strip " London ").
Proof.
  assert (H : rendered (weather (Sample.serving Sample.clear_sky)
                                (submit " London ")) =
              Ok (Some (Sample.shown (Sample.serving Sample.clear_sky)
                                     " London ")))
    by (vm_compute; reflexivity).
  assert (S : is_success
                (Sample.shown (Sample.serving Sample.clear_sky) " London "))
    by (vm_compute; reflexivity).
  split; [exact H|]. split; [exact S|].
  exact (proj1 (success_requires_complete_answer
                  (Sample.serving Sample.clear_sky) " London " _ H S)).
Defined.

(** ** Incomplete answers *)

Lemma getitem_raise (obj : json) (key : string) (e : exn) :
  PyObj.getitem obj key = Raise e -> is_RequestException e = false.
Proof.
  destruct obj; cbn; try (intros H; now injection H as <-).
  destruct (PyDict.lookup key fields); [discriminate|].
  intros H. now injection H as <-.
Qed.

Lemma getitem0_raise (obj : json) (e : exn) :
  PyObj.getitem0 obj = Raise e -> is_RequestException e = false.
Proof.
  destruct obj as [| | | |[|c s]|[|x l]|]; cbn; try discriminate;
    intros H; now injection H as <-.
Qed.

Lemma get_raise (obj : json) (key : string) (default : json) (e : exn) :
  PyObj.get obj key default = Raise e -> is_RequestException e = false.
Proof.
  destruct obj; cbn; try (intros H; now injection H as <-).
  destruct (PyDict.lookup key fields); discriminate.
Qed.

Lemma getitem_missing (fields : list (string * json)) (key : string) :
  PyDict.lookup key fields = None ->
  PyObj.getitem (JObj fields) key = Raise (KeyError key).
Proof.
  intros H. cbn. now rewrite H.
Qed.

(** Follows the reads of [weather_found] up to the first one that
    raises. *)
Ltac first_failing_read :=
  repeat (cbn [bind];
    match goal with
    | |- exists e, Raise ?x = Raise e /\ _ =>
        exists x; split;
        [ reflexivity
        | solve [ reflexivity
                | eauto using getitem_raise, getitem0_raise, get_raise ] ]
    | |- exists e, bind ?m _ = Raise e /\ _ => destruct m eqn:?
    end).

Lemma weather_found_incomplete (w : world) (fields : list (string * json))
    (key : string) :
  In key ["name"; "sys"; "main"; "weather"; "wind"; "timezone"] ->
  PyDict.lookup key fields = None ->
  exists e,
    weather_found w (JObj fields) = Raise e /\ is_RequestException e = false.
Proof.
  intros Hin Hmiss. unfold weather_found.
  cbn [In] in Hin.
  repeat destruct Hin as [Hin|Hin]; try contradiction; subst key;
    rewrite !(getitem_missing fields _ Hmiss); first_failing_read.
Qed.

Lemma weather_found_escapes (w : world) (raw : string)
    (fields : list (string * json)) (cod : json) (e : exn) :
  valid_city (PyStr.strip raw) ->
  requests_get w (base_url w (PyStr.strip raw)) = Ok (JObj fields) ->
  PyDict.lookup "cod" fields = Some cod ->
  PyNum.eq_200 cod = true ->
  weather_found w (JObj fields) = Raise e ->
  is_RequestException e = false ->
  weather w (submit raw) =
    {| requested := [base_url w (PyStr.strip raw)]; rendered := Raise e |}.
Proof.
  intros Hv Hget Hcod H200 Hf He. rewrite (weather_valid w raw Hv). f_equal.
  rewrite (try_except_passes _ transport_error e); [reflexivity| |exact He].
  rewrite fetch_eq, Hget. cbn [bind PyObj.get]. rewrite Hcod.
  cbn [bind]. now rewrite H200.
Qed.

(** X12. When the answer has [cod] 200 but lacks one of [name], [sys],
    [main], [weather], [wind] or [timezone], the handler renders
    nothing: after its single request an exception leaves it, and that
    exception is not of the [requests] hierarchy. *)
Theorem incomplete_answer_raises
    (w : world) (raw : string) (fields : list (string * json))
    (cod : json) (key : string) :
  valid_city (PyStr.strip raw) ->
  requests_get w (base_url w (PyStr.strip raw)) = Ok (JObj fields) ->
  PyDict.lookup "cod" fields = Some cod ->
  PyNum.eq_200 cod = true ->
  In key ["name"; "sys"; "main"; "weather"; "wind"; "timezone"] ->
  PyDict.lookup key fields = None ->
  exists e,
    is_RequestException e = false
    /\ weather w (submit raw) =
         {| requested := [base_url w (PyStr.strip raw)];
            rendered := Raise e |}.
Proof.
  intros Hv Hget Hcod H200 Hin Hmiss.
  destruct (weather_found_incomplete w fields key Hin Hmiss) as (e & Hf & He).
  exists e. split; [exact He|].
  now apply (weather_found_escapes w raw fields cod e).
Qed.

Lemma incomplete_answer_raises_witness :
  valid_city (PyStr.strip "London")
  /\ In "wind" ["name"; "sys"; "main"; "weather"; "wind"; "timezone"]
  /\ PyDict.lookup "wind"
       [ ("cod", JInt 200); ("name", JStr "London");
         ("sys", JObj [("country", JStr "GB")]);
         ("main", JObj Sample.mild);
         ("weather", JArr [JObj [("description", JStr "mist")]]) ] = None
  /\ exists e,
       is_RequestException e = false
       /\ weather
            (Sample.serving
               (JObj [ ("cod", JInt 200); ("name", JStr "London");
                       ("sys", JObj [("country", JStr "GB")]);
                       ("main", JObj Sample.mild);
                       ("weather",
                        JArr [JObj [("description", JStr "mist")]]) ]))
            (submit "London") =
            {| requested :=
                 [ "http://api.openweathermap.org/data/2.5/weather?appid=KEY&q=London&units=metric" ];
               rendered := Raise e |}.
Proof.
  assert (Hv : valid_city (PyStr.strip "London")) by valid_by_evaluation.
  assert (Hin : In "wind" ["name"; "sys"; "main"; "weather"; "wind";
                           "timezone"]) by (cbn; tauto).
  split; [exact Hv|]. split; [exact Hin|]. split; [reflexivity|].
  exact (incomplete_answer_raises
           (Sample.serving
              (JObj [ ("cod", JInt 200); ("name", JStr "London");
                      ("sys", JObj [("country", JStr "GB")]);
                      ("main", JObj Sample.mild);
                      ("weather",
                       JArr [JObj [("description", JStr "mist")]]) ]))
           "London" _ (JInt 200) "wind" Hv eq_refl eq_refl eq_refl Hin
           eq_refl).
Defined.

(** X13. When the answer has [cod] 200 and a name, a country and a
    [main] block with its three fields, but an empty list of weather
    reports, reading the first report raises [IndexError], which leaves
    the handler. *)
Theorem empty_weather_list_raises_IndexError
    (w : world) (raw : string) (fields sys main : list (string * json))
    (cod name country temp feels humidity : json) :
  valid_city (PyStr.strip raw) ->
  requests_get w (base_url w (PyStr.strip raw)) = Ok (JObj fields) ->
  PyDict.lookup "cod" fields = Some cod ->
  PyNum.eq_200 cod = true ->
  PyDict.lookup "name" fields = Some name ->
  PyDict.lookup "sys" fields = Some (JObj sys) ->
  PyDict.lookup "country" sys = Some country ->
  PyDict.lookup "main" fields = Some (JObj main) ->
  PyDict.lookup "temp" main = Some temp ->
  PyDict.lookup "feels_like" main = Some feels ->
  PyDict.lookup "humidity" main = Some humidity ->
  PyDict.lookup "weather" fields = Some (JArr []) ->
  weather w (submit raw) =
    {| requested := [base_url w (PyStr.strip raw)];
       rendered := Raise IndexError |}.
Proof.
  intros Hv Hget Hcod H200 Hname Hsys Hcountry Hmain Htemp Hfeels Hhum Hw.
  apply (weather_found_escapes w raw fields cod IndexError); auto.
  unfold weather_found. cbn [PyObj.getitem].
  rewrite Hname, Hsys, Hmain, Hw. cbn [bind PyObj.getitem].
  rewrite Hcountry, Htemp, Hfeels, Hhum. reflexivity.
Qed.

Lemma empty_weather_list_raises_IndexError_witness :
  valid_city (PyStr.strip "London")
  /\ weather
       (Sample.serving
          (JObj [ ("cod", JInt 200); ("name", JStr "London");
                  ("sys", JObj [("country", JStr "GB")]);
                  ("main", JObj Sample.mild);
                  ("weather", JArr []) ]))
       (submit "London") =
       {| requested :=
            [ "http://api.openweathermap.org/data/2.5/weather?appid=KEY&q=London&units=metric" ];
          rendered := Raise IndexError |}.
Proof.
  assert (Hv : valid_city (PyStr.strip "London")) by valid_by_evaluation.
  split; [exact Hv|].
  exact (empty_weather_list_raises_IndexError
           (Sample.serving
              (JObj [ ("cod", JInt 200); ("name", JStr "London");
                      ("sys", JObj [("country", JStr "GB")]);
                      ("main", JObj Sample.mild);
                      ("weather", JArr []) ]))
           "London" _ [("country", JStr "GB")] Sample.mild
           (JInt 200) (JStr "London") (JStr "GB")
           (JFloat (Sample.decimal 21456 3)) (JFloat (Sample.decimal (-5) 1))
           (JInt 60)
           Hv eq_refl eq_refl eq_refl eq_refl eq_refl eq_refl eq_refl
           eq_refl eq_refl eq_refl eq_refl).
Defined.

(** ** The status of the answer *)

(** X15. Only the number 200 counts as found: when the [cod] of the
    answer is a string (the text "200" included), a boolean, null, a
    list, an object or an integer other than 200, the handler renders
    "City not found. Please check the city name." *)
Theorem cod_must_be_the_number_200
    (w : world) (raw : string) (fields : list (string * json)) (cod : json) :
  valid_city (PyStr.strip raw) ->
  requests_get w (base_url w (PyStr.strip raw)) = Ok (JObj fields) ->
  PyDict.lookup "cod" fields = Some cod ->
  cod <> JInt 200 ->
  (forall f, cod <> JFloat f) ->
  weather w (submit raw) =
    {| requested := [base_url w (PyStr.strip raw)];
       rendered := Ok (Some city_not_found) |}.
Proof.
  intros Hv Hget Hcod Hint Hfloat. rewrite (weather_valid w raw Hv).
  rewrite fetch_eq, Hget. cbn [bind PyObj.get]. rewrite Hcod.
  cbn [bind].
  assert (E : PyNum.eq_200 cod = false).
  { destruct cod as [|b|z|f| | |]; try reflexivity.
    - now destruct b.
    - unfold PyNum.eq_200. cbn [PyNum.as_number].
      destruct (Z.eqb_spec z 200) as [->|_]; [contradiction | reflexivity].
    - now contradiction (Hfloat f). }
  now rewrite E.
Qed.

Lemma cod_must_be_the_number_200_witness :
  valid_city (PyStr.strip "London")
  /\ JStr "200" <> JInt 200
  /\ (forall f, JStr "200" <> JFloat f)
  /\ weather
       (Sample.serving
          (Sample.report (JStr "200") Sample.mild (JStr "clear sky")
             Sample.breeze (JInt 0)))
       (submit "London") =
       {| requested :=
            [ "http://api.openweathermap.org/data/2.5/weather?appid=KEY&q=London&units=metric" ];
          rendered := Ok (Some city_not_found) |}.
Proof.
  assert (Hv : valid_city (PyStr.strip "London")) by valid_by_evaluation.
  assert (Hi : JStr "200" <> JInt 200) by discriminate.
  assert (Hf : forall f, JStr "200" <> JFloat f) by (intros f; discriminate).
  split; [exact Hv|]. split; [exact Hi|]. split; [exact Hf|].
  exact (cod_must_be_the_number_200
           (Sample.serving
              (Sample.report (JStr "200") Sample.mild (JStr "clear sky")
                 Sample.breeze (JInt 0)))
           "London"
           (Sample.report_fields (JStr "200") Sample.mild (JStr "clear sky")
              Sample.breeze (JInt 0))
           (JStr "200") Hv eq_refl eq_refl Hi Hf).
Defined.
